(** * CivicTrack: geofenced submission, status updates and moderation

    A shallow embedding of the backend of the CivicTrack repository:

    - the geolocation utilities (src/unnamed/part_006, from line 383):
      [calculateDistance], [isWithinRadius], [generateBoundingBox],
      [isValidCoordinates];
    - the Issue model (src/unnamed/part_007): the issue document, its
      schema validators, the [pre('save')] middleware, [hasUserVoted] and
      [toggleVote];
    - the User and StatusHistory models and the server
      (src/backend/src/models/User.ts, which holds them one after the
      other): the handlers of [GET /issues], [GET /admin/issues],
      [POST /issues], [PUT /issues/:id] and [POST /issues/:id/flag];
    - the default of [autoHideFlagThreshold] of the configuration (same
      file, last part).

    Conventions.  A JavaScript [number] is modelled by a real number (the
    rounding error of IEEE doubles is not modelled), a [Date] by the integer
    number of milliseconds since the epoch, an [ObjectId] by a natural
    number, a string by [string].  A MongoDB collection is the list of its
    documents in insertion order.  An optional field is an [option]. *)

From Stdlib Require Import Reals Lra Lia ZArith List String Ascii Bool.
From Stdlib Require Import Sorted Permutation.
Import ListNotations.

Local Open Scope R_scope.

Definition ObjectId := nat.
Definition Date := Z.

Bind Scope nat_scope with ObjectId.
Bind Scope Z_scope with Date.

(* ================================================================= *)
(** ** JavaScript helpers *)

(** Truthiness of the values the handlers test with [!x] and [x || d]. *)
Definition truthyStr (s : option string) : bool :=
  match s with
  | None => false
  | Some s => negb (String.eqb s "")
  end.

Definition truthyNum (x : R) : bool :=
  if Req_dec_T x 0 then false else true.

(** The comparisons [<=] and [>] of numbers, as booleans. *)
Definition leR (x y : R) : bool := if Rle_dec x y then true else false.
Definition gtR (x y : R) : bool := if Rgt_dec x y then true else false.

Arguments truthyNum : simpl never.
Arguments leR : simpl never.
Arguments gtR : simpl never.

(** [x || d] on numbers. *)
Definition orNum (x d : R) : R := if truthyNum x then x else d.

(** [Math.round]: the nearest integer, halves rounded up. *)
Definition jsRound (x : R) : R := IZR (Int_part (x + / 2)).

(** [Array.prototype.includes] on strings. *)
Definition includes (l : list string) (s : string) : bool :=
  existsb (String.eqb s) l.

(* ================================================================= *)
(** ** Geolocation utilities (src/unnamed/part_006, lines 383-444) *)

Record Point : Type := mkPoint { latitude : R; longitude : R }.

(** The argument objects [{lat, lon}] handed to geolib. *)
Record LatLon : Type := mkLatLon { lat : R; lon : R }.

Record GeoBounds : Type := mkGeoBounds
  { north : R; south : R; east : R; west : R }.

Section Geolocation.

(** [getDistance] of the geolib package (a third-party dependency): the
    distance in metres between two [{lat, lon}] objects. *)
Variable getDistance : LatLon -> LatLon -> R.

Definition calculateDistance (point1 point2 : Point) : R :=
  let distance :=
    getDistance (mkLatLon (latitude point1) (longitude point1))
                (mkLatLon (latitude point2) (longitude point2)) in
  distance / 1000.

Definition isWithinRadius (center point : Point) (radiusKm : R) : bool :=
  let distance := calculateDistance center point in
  leR distance radiusKm.

End Geolocation.

(** The two local constants of [generateBoundingBox]; [lngDivisor] is the
    divisor of the second. *)
Definition latDegreesPerKm : R := 1 / 111.

Definition lngDivisor (center : Point) : R :=
  111 * cos (latitude center * PI / 180).

Definition lngDegreesPerKm (center : Point) : R := 1 / lngDivisor center.

Definition generateBoundingBox (center : Point) (radiusKm : R) : GeoBounds :=
  let latDelta := radiusKm * latDegreesPerKm in
  let lngDelta := radiusKm * lngDegreesPerKm center in
  {| north := latitude center + latDelta;
     south := latitude center - latDelta;
     east := longitude center + lngDelta;
     west := longitude center - lngDelta |}.

Definition isValidCoordinates (latitude longitude : R) : bool :=
  leR (-90) latitude && leR latitude 90 &&
  leR (-180) longitude && leR longitude 180.

(** Degrees to radians. *)
Definition toRad (deg : R) : R := deg * PI / 180.

(** Modelled from the spec: [getDistance] of geolib, which is not part of
    the repository.  The spec describes the distance as the "haversine
    great-circle distance (Earth radius 6371 km)"; this is that formula, in
    metres, the unit [calculateDistance] expects. *)
Definition haversineMetres (a b : LatLon) : R :=
  let dLat := toRad (lat b - lat a) in
  let dLon := toRad (lon b - lon a) in
  let h := sin (dLat / 2) * sin (dLat / 2)
           + cos (toRad (lat a)) * cos (toRad (lat b))
             * (sin (dLon / 2) * sin (dLon / 2)) in
  6371 * 1000 * (2 * asin (sqrt h)).

(** [distanceKm] of the spec is [calculateDistance] over that formula. *)
Definition distanceKm : Point -> Point -> R :=
  calculateDistance haversineMetres.

(* ================================================================= *)
(** ** String setters of the schemas: [trim] and [lowercase] *)

Local Open Scope string_scope.

(** White space removed by [String.prototype.trim], within ASCII. *)
Definition isSpace (c : ascii) : bool :=
  let n := nat_of_ascii c in
  (Nat.eqb n 32 || (Nat.leb 9 n && Nat.leb n 13))%bool.

Fixpoint trimStart (s : string) : string :=
  match s with
  | EmptyString => EmptyString
  | String c r => if isSpace c then trimStart r else s
  end.

Fixpoint trimEnd (s : string) : string :=
  match s with
  | EmptyString => EmptyString
  | String c r =>
      let r' := trimEnd r in
      if (isSpace c && String.eqb r' "")%bool then "" else String c r'
  end.

Definition trim (s : string) : string := trimEnd (trimStart s).

Definition lowerAscii (c : ascii) : ascii :=
  let n := nat_of_ascii c in
  if (Nat.leb 65 n && Nat.leb n 90)%bool then ascii_of_nat (n + 32) else c.

Fixpoint toLowerCase (s : string) : string :=
  match s with
  | EmptyString => EmptyString
  | String c r => String (lowerAscii c) (toLowerCase r)
  end.

Fixpoint endsWith (s suffix : string) : bool :=
  (String.eqb s suffix ||
   match s with
   | EmptyString => false
   | String _ r => endsWith r suffix
   end)%bool.

Fixpoint noLineBreak (s : string) : bool :=
  match s with
  | EmptyString => true
  | String c r =>
      let n := nat_of_ascii c in
      (negb (Nat.eqb n 10) && negb (Nat.eqb n 13) && noLineBreak r)%bool
  end.

(** The validator of [images]:
    [/^(https?:\/\/.+\.(jpg|jpeg|png|gif|webp)|\/uploads\/.+\.(jpg|jpeg|png|gif|webp))$/i].
    A match is a prefix, at least one character other than a line break, a
    dot and an extension, compared without case. *)
Definition imagePrefixes : list string := ["http://"; "https://"; "/uploads/"].
Definition imageSuffixes : list string :=
  [".jpg"; ".jpeg"; ".png"; ".gif"; ".webp"].

Definition imageUrlValid (url : string) : bool :=
  let u := toLowerCase url in
  (noLineBreak u &&
   existsb (fun p =>
     existsb (fun e =>
       String.prefix p u && endsWith u e &&
       Nat.leb (String.length p + 1 + String.length e) (String.length u))
     imageSuffixes)
   imagePrefixes)%bool.

(* ================================================================= *)
(** ** The User model (src/backend/src/models/User.ts, lines 1-186) *)

(** [defaultLocation]: coordinates and an optional address. *)
Record UserLocation : Type := mkUserLocation
  { userPoint :> Point; userAddress : option string }.

Record User : Type := mkUser
  { user_id : ObjectId;
    name : string;
    email : string;
    role : string;
    isBanned : bool;
    defaultLocation : option UserLocation;
    preferredRadiusKm : R }.

(* ================================================================= *)
(** ** The Issue model (src/unnamed/part_007) *)

(** [location] of an issue: coordinates, address, district and ward. *)
Record Location : Type := mkLocation
  { point :> Point;
    address : string;
    district : option string;
    ward : option string }.

Record Issue : Type := mkIssue
  { _id : ObjectId;
    title : string;
    description : string;
    category : string;
    priority : string;
    status : string;
    location : Location;
    reportedBy : ObjectId;
    assignedTo : option ObjectId;
    images : list string;
    upvotes : list ObjectId;
    downvotes : list ObjectId;
    views : Z;
    isVerified : bool;
    estimatedResolutionDate : option Date;
    actualResolutionDate : option Date;
    resolutionNotes : option string;
    tags : list string;
    isPublic : bool;
    isFlagged : bool;
    flaggedReason : option string;
    flaggedBy : option ObjectId;
    flaggedAt : option Date;
    createdAt : Date;
    updatedAt : Date }.

(** The six status names of the schema, as an enumeration. *)
Inductive Status : Type :=
  | Reported | InReview | InProgress | Resolved | Closed | Rejected.

Definition statusName (s : Status) : string :=
  match s with
  | Reported => "reported"
  | InReview => "in_review"
  | InProgress => "in_progress"
  | Resolved => "resolved"
  | Closed => "closed"
  | Rejected => "rejected"
  end.

Definition allStatuses : list Status :=
  [Reported; InReview; InProgress; Resolved; Closed; Rejected].

Definition categoryValues : list string :=
  ["infrastructure"; "environment"; "safety"; "utilities"; "transportation";
   "housing"; "health"; "education"; "other"].
Definition priorityValues : list string := ["low"; "medium"; "high"; "critical"].
Definition statusValues : list string := map statusName allStatuses.

(** Field updates. *)
Definition set_status (v : string) (i : Issue) : Issue :=
  let '(mkIssue a b c d e _ g h j k l m n o p q r s t u v0 w x y z) := i in
  mkIssue a b c d e v g h j k l m n o p q r s t u v0 w x y z.
Definition set_priority (v : string) (i : Issue) : Issue :=
  let '(mkIssue a b c d _ f g h j k l m n o p q r s t u v0 w x y z) := i in
  mkIssue a b c d v f g h j k l m n o p q r s t u v0 w x y z.
Definition set_tags (v : list string) (i : Issue) : Issue :=
  let '(mkIssue a b c d e f g h j k l m n o p q r _ t u v0 w x y z) := i in
  mkIssue a b c d e f g h j k l m n o p q r v t u v0 w x y z.
Definition set_upvotes (v : list ObjectId) (i : Issue) : Issue :=
  let '(mkIssue a b c d e f g h j k _ m n o p q r s t u v0 w x y z) := i in
  mkIssue a b c d e f g h j k v m n o p q r s t u v0 w x y z.
Definition set_downvotes (v : list ObjectId) (i : Issue) : Issue :=
  let '(mkIssue a b c d e f g h j k l _ n o p q r s t u v0 w x y z) := i in
  mkIssue a b c d e f g h j k l v n o p q r s t u v0 w x y z.
Definition set_actualResolutionDate (v : option Date) (i : Issue) : Issue :=
  let '(mkIssue a b c d e f g h j k l m n o p _ r s t u v0 w x y z) := i in
  mkIssue a b c d e f g h j k l m n o p v r s t u v0 w x y z.
Definition set_isFlagged (v : bool) (i : Issue) : Issue :=
  let '(mkIssue a b c d e f g h j k l m n o p q r s t _ v0 w x y z) := i in
  mkIssue a b c d e f g h j k l m n o p q r s t v v0 w x y z.
Definition set_flaggedReason (v : option string) (i : Issue) : Issue :=
  let '(mkIssue a b c d e f g h j k l m n o p q r s t u _ w x y z) := i in
  mkIssue a b c d e f g h j k l m n o p q r s t u v w x y z.
Definition set_flaggedBy (v : option ObjectId) (i : Issue) : Issue :=
  let '(mkIssue a b c d e f g h j k l m n o p q r s t u v0 _ x y z) := i in
  mkIssue a b c d e f g h j k l m n o p q r s t u v0 v x y z.
Definition set_flaggedAt (v : option Date) (i : Issue) : Issue :=
  let '(mkIssue a b c d e f g h j k l m n o p q r s t u v0 w _ y z) := i in
  mkIssue a b c d e f g h j k l m n o p q r s t u v0 w v y z.
Definition set_updatedAt (v : Date) (i : Issue) : Issue :=
  let '(mkIssue a b c d e f g h j k l m n o p q r s t u v0 w x y _) := i in
  mkIssue a b c d e f g h j k l m n o p q r s t u v0 w x y v.

Definition isSome {A : Type} (o : option A) : bool :=
  match o with Some _ => true | None => false end.

Definition optStrMax (n : nat) (o : option string) : bool :=
  match o with None => true | Some s => Nat.leb (String.length s) n end.

(** The setters of the schema ([trim], [lowercase]), applied when a
    document is built from plain data. *)
Definition applySetters (i : Issue) : Issue :=
  let '(mkIssue a b c d e f g h j k l m n o p q r s t u v w x y z) := i in
  mkIssue a (trim b) (trim c) d e f
    (mkLocation (point g) (trim (address g)) (district g) (ward g))
    h j k l m n o p q r (map (fun tag => toLowerCase (trim tag)) s)
    t u v w x y z.

(** The validators of the schema, run by [save]: those of the coordinates
    and those of the other fields. *)
Definition coordinatesValid (p : Point) : bool :=
  leR (-90) (latitude p) && leR (latitude p) 90 &&
  leR (-180) (longitude p) && leR (longitude p) 180.

Definition fieldsValid (i : Issue) : bool :=
  (Nat.leb 10 (String.length (title i)) &&
   Nat.leb (String.length (title i)) 200 &&
   Nat.leb 20 (String.length (description i)) &&
   Nat.leb (String.length (description i)) 2000 &&
   includes categoryValues (category i) &&
   includes priorityValues (priority i) &&
   includes statusValues (status i) &&
   negb (String.eqb (address (location i)) "") &&
   Nat.leb (String.length (address (location i))) 500 &&
   forallb imageUrlValid (images i) &&
   Z.leb 0 (views i) &&
   optStrMax 1000 (resolutionNotes i) &&
   forallb (fun tag => Nat.leb (String.length tag) 50) (tags i) &&
   optStrMax 500 (flaggedReason i))%bool.

Definition validateIssue (i : Issue) : bool :=
  (fieldsValid i && coordinatesValid (location i))%bool.

(** [issueSchema.pre('save')].  [modStatus] and [modIsFlagged] are
    [this.isModified('status')] and [this.isModified('isFlagged')]. *)
Definition preSave (modStatus modIsFlagged : bool) (now : Date) (this : Issue)
  : Issue :=
  let this :=
    if (modStatus && String.eqb (status this) "resolved"
        && negb (isSome (actualResolutionDate this)))%bool
    then set_actualResolutionDate (Some now) this else this in
  let this :=
    if (modStatus && negb (String.eqb (status this) "resolved")
        && isSome (actualResolutionDate this))%bool
    then set_actualResolutionDate None this else this in
  let this :=
    if (modIsFlagged && isFlagged this && negb (isSome (flaggedAt this)))%bool
    then set_flaggedAt (Some now) this else this in
  let this :=
    if (modIsFlagged && negb (isFlagged this))%bool
    then set_flaggedBy None (set_flaggedReason None (set_flaggedAt None this))
    else this in
  this.

(** [issueSchema.methods.hasUserVoted]. *)
Inductive VoteType : Type := upvote | downvote.

Definition hasUserVoted (this : Issue) (userId : ObjectId) : option VoteType :=
  let hasUpvoted := existsb (Nat.eqb userId) (upvotes this) in
  let hasDownvoted := existsb (Nat.eqb userId) (downvotes this) in
  if hasUpvoted then Some upvote
  else if hasDownvoted then Some downvote
  else None.

(** [issueSchema.methods.toggleVote], up to its final [this.save()]: the
    document as it is handed to [save]. *)
Definition toggleVote (this : Issue) (userId : ObjectId) (voteType : VoteType)
  : Issue :=
  let this :=
    set_upvotes (filter (fun id => negb (Nat.eqb id userId)) (upvotes this))
                this in
  let this :=
    set_downvotes (filter (fun id => negb (Nat.eqb id userId)) (downvotes this))
                  this in
  match voteType with
  | upvote => set_upvotes (upvotes this ++ [userId]) this
  | downvote => set_downvotes (downvotes this ++ [userId]) this
  end.

(* ================================================================= *)
(** ** The StatusHistory model (src/backend/src/models/User.ts, lines 187-250) *)

Record StatusHistory : Type := mkStatusHistory
  { history_id : ObjectId;
    issueId : ObjectId;
    previousStatus : string;
    newStatus : string;
    changedBy : ObjectId;
    changeReason : option string;
    history_createdAt : Date }.

(* ================================================================= *)
(** ** The database and the queries of the driver *)

Record Db : Type := mkDb
  { users : list User;
    issues : list Issue;
    statusHistories : list StatusHistory;
    nextId : ObjectId }.

Definition set_issues (v : list Issue) (db : Db) : Db :=
  mkDb (users db) v (statusHistories db) (nextId db).

Definition findUserById (id : ObjectId) (db : Db) : option User :=
  find (fun u => Nat.eqb (user_id u) id) (users db).

Definition findIssueById (id : ObjectId) (db : Db) : option Issue :=
  find (fun i => Nat.eqb (_id i) id) (issues db).

(** [findByIdAndUpdate(id, update, {new: true})] on a collection: the first
    document with that id is replaced by its update and returned.  It is a
    query, so the [pre('save')] middleware does not run. *)
Fixpoint findByIdAndUpdate (id : ObjectId) (update : Issue -> Issue)
    (coll : list Issue) : option (Issue * list Issue) :=
  match coll with
  | [] => None
  | doc :: rest =>
      if Nat.eqb (_id doc) id then Some (update doc, update doc :: rest)
      else match findByIdAndUpdate id update rest with
           | Some (doc', rest') => Some (doc', doc :: rest')
           | None => None
           end
  end.

(** [sort({createdAt: -1})]: newest first; documents of equal date keep the
    order of the collection. *)
Fixpoint insertByCreatedAt (doc : Issue) (sorted : list Issue) : list Issue :=
  match sorted with
  | [] => [doc]
  | d :: rest =>
      if Z.leb (createdAt d) (createdAt doc) then doc :: sorted
      else d :: insertByCreatedAt doc rest
  end.

Definition sortCreatedAtDesc (docs : list Issue) : list Issue :=
  fold_right insertByCreatedAt [] docs.

(** [.skip(skip).limit(limit)]: the server rejects a negative skip; a limit
    of 0 is no limit and a negative limit counts as its absolute value. *)
Definition skipLimit (skip limit : Z) (docs : list Issue)
  : option (list Issue) :=
  if Z.ltb skip 0 then None
  else
    let rest := skipn (Z.to_nat skip) docs in
    Some (if Z.eqb limit 0 then rest else firstn (Z.abs_nat limit) rest).

(* ================================================================= *)
(** ** The server (src/backend/src/models/User.ts, lines 502-1764):
       requests and responses *)

Record JwtUser : Type := mkJwtUser
  { jwt_userId : ObjectId; jwt_email : string; jwt_role : string }.

(** The [Authorization] header after [jwt.verify]. *)
Inductive Credentials : Type :=
  | NoToken
  | BadToken
  | Verified (user : JwtUser).

(** The [data] of the geofence rejection. *)
Record GeofenceData : Type := mkGeofenceData
  { distance : R;
    maxAllowed : R;
    userLocation : UserLocation;
    issueLocation : Location }.

(** [pagination] of a list response; [totalPages], [hasNext] and [hasPrev]
    are computed from these three. *)
Record Pagination : Type := mkPagination
  { page : Z; limit : Z; total : nat }.

Inductive Response : Type :=
  | Failure (code : nat) (message : string)
  | GeofenceFailure (code : nat) (data : GeofenceData)
  | IssueResult (code : nat) (message : string) (data : Issue)
  | IssuePage (data : list Issue) (pagination : Pagination).

(** The query string of [GET /issues] and [GET /admin/issues], with [page]
    and [limit] after [parseInt]. *)
Record ListQuery : Type := mkListQuery
  { q_page : option Z;
    q_limit : option Z;
    q_category : option string;
    q_status : option string;
    q_priority : option string;
    q_search : option string;
    q_latitude : option R;
    q_longitude : option R;
    q_radius : option R;
    q_userId : option ObjectId }.

(** The body of [POST /issues].  An absent coordinate or address of
    [location] is read as [0] or the empty string: the handler rejects both
    alike. *)
Record CreateBody : Type := mkCreateBody
  { b_title : option string;
    b_description : option string;
    b_category : option string;
    b_priority : option string;
    b_location : option Location;
    b_images : option (list string);
    b_tags : option (list string);
    b_isPublic : option bool;
    b_reportedBy : option ObjectId }.

(** The body of [PUT /issues/:id]. *)
Record UpdateBody : Type := mkUpdateBody
  { u_status : option string;
    u_priority : option string;
    u_tags : option (list string) }.

(** The body of [POST /issues/:id/flag]. *)
Record FlagBody : Type := mkFlagBody
  { f_reason : option string;
    f_reportedBy : option ObjectId }.

Definition orDefault {A : Type} (o : option A) (d : A) : A :=
  match o with Some a => a | None => d end.

(** [x || d] on strings. *)
Definition orStr (o : option string) (d : string) : string :=
  if truthyStr o then orDefault o d else d.

(** [authenticateToken] followed by [requireAdmin]: the response that ends
    the request, if any. *)
Definition authenticateToken (c : Credentials) : option Response :=
  match c with
  | NoToken => Some (Failure 401 "Access token required")
  | BadToken => Some (Failure 403 "Invalid or expired token")
  | Verified _ => None
  end.

Definition requireAdmin (c : Credentials) : option Response :=
  match c with
  | Verified user =>
      if String.eqb (jwt_role user) "admin" then None
      else Some (Failure 403 "Admin access required")
  | _ => Some (Failure 403 "Admin access required")
  end.

Definition adminOnly (c : Credentials) : option Response :=
  match authenticateToken c with
  | Some r => Some r
  | None => requireAdmin c
  end.

(** A filter of the list handlers is applied when its value is truthy and
    none of the excluded words. *)
Definition filterGiven (excluded : list string) (o : option string) : bool :=
  (truthyStr o && negb (includes excluded (orDefault o "")))%bool.

Definition fieldMatches (excluded : list string) (o : option string)
    (field : string) : bool :=
  if filterGiven excluded o then String.eqb field (orDefault o "") else true.

(* ================================================================= *)
(** ** The server: the handlers *)

Section Server.

(** [getDistance] of geolib, in metres. *)
Variable getDistance : LatLon -> LatLon -> R.

(** The [$text] operator of MongoDB over the text index of the issues. *)
Variable textSearch : string -> Issue -> bool.

(** *** GET /api/v1/issues *)

Definition publicQuery (q : ListQuery) (doc : Issue) : bool :=
  ((match q_userId q with
    | Some userId => Nat.eqb (reportedBy doc) userId
    | None => negb (isFlagged doc)
    end)
   && fieldMatches ["all"; "undefined"] (q_category q) (category doc)
   && fieldMatches ["all"; "undefined"] (q_status q) (status doc)
   && fieldMatches ["all"; "undefined"] (q_priority q) (priority doc)
   && (if filterGiven ["undefined"] (q_search q)
       then textSearch (orDefault (q_search q) "") doc else true))%bool.

Definition getIssues (q : ListQuery) (db : Db) : Response :=
  let pageNum := orDefault (q_page q) 1%Z in
  let limitNum := orDefault (q_limit q) 10%Z in
  let skip := ((pageNum - 1) * limitNum)%Z in
  let found := filter (publicQuery q) (issues db) in
  match skipLimit skip limitNum (sortCreatedAtDesc found) with
  | None => Failure 500 "Failed to fetch issues"
  | Some docs =>
      IssuePage docs (mkPagination pageNum limitNum (List.length found))
  end.

(** *** GET /api/v1/admin/issues *)

Definition adminQuery (q : ListQuery) (doc : Issue) : bool :=
  (fieldMatches ["all"] (q_category q) (category doc)
   && fieldMatches ["all"] (q_status q) (status doc)
   && fieldMatches ["all"] (q_priority q) (priority doc)
   && (if truthyStr (q_search q)
       then textSearch (orDefault (q_search q) "") doc else true))%bool.

Definition getAdminIssues (c : Credentials) (q : ListQuery) (db : Db)
  : Response :=
  match adminOnly c with
  | Some r => r
  | None =>
      let pageNum := orDefault (q_page q) 1%Z in
      let limitNum := orDefault (q_limit q) 50%Z in
      let skip := ((pageNum - 1) * limitNum)%Z in
      let found := filter (adminQuery q) (issues db) in
      match skipLimit skip limitNum (sortCreatedAtDesc found) with
      | None => Failure 500 "Failed to fetch issues"
      | Some docs =>
          IssuePage docs (mkPagination pageNum limitNum (List.length found))
      end
  end.

(** *** POST /api/v1/issues *)

(** [Math.min(user.preferredRadiusKm || 5, 5)]. *)
Definition maxAllowedRadius (user : User) : R :=
  Rmin (orNum (preferredRadiusKm user) 5) 5.

(** [!location.latitude || !location.longitude || !location.address]. *)
Definition locationIncomplete (l : Location) : bool :=
  (negb (truthyNum (latitude l)) || negb (truthyNum (longitude l))
   || String.eqb (address l) "")%bool.

(** [!user.defaultLocation || !....latitude || !....longitude]. *)
Definition defaultLocationSet (user : User) : option UserLocation :=
  match defaultLocation user with
  | None => None
  | Some l =>
      if (truthyNum (latitude l) && truthyNum (longitude l))%bool
      then Some l else None
  end.

(** [new Issue({...})] of the handler: the given fields, the defaults of
    the schema for the others, the timestamps. *)
Definition newIssue (id : ObjectId) (now : Date) (title description
    category : string) (body : CreateBody) (location : Location)
    (reportedBy : ObjectId) : Issue :=
  applySetters
    {| _id := id;
       title := title;
       description := description;
       category := category;
       priority := orStr (b_priority body) "medium";
       status := "reported";
       location := location;
       reportedBy := reportedBy;
       assignedTo := None;
       images := orDefault (b_images body) [];
       upvotes := [];
       downvotes := [];
       views := 0;
       isVerified := false;
       estimatedResolutionDate := None;
       actualResolutionDate := None;
       resolutionNotes := None;
       tags := orDefault (b_tags body) [];
       isPublic := orDefault (b_isPublic body) true;
       isFlagged := false;
       flaggedReason := None;
       flaggedBy := None;
       flaggedAt := None;
       createdAt := now;
       updatedAt := now |}.

(** [doc.save()] of a new document: validation, then the [pre('save')]
    middleware, then the insertion.  The defaults of a new document are
    not modified paths. *)
Definition saveNew (now : Date) (doc : Issue) (db : Db)
  : option (Issue * Db) :=
  if validateIssue doc then
    let doc := preSave false false now doc in
    Some (doc, mkDb (users db) (issues db ++ [doc]) (statusHistories db)
                    (S (nextId db)))
  else None.

Definition createIssue (now : Date) (body : CreateBody) (db : Db)
  : Response * Db :=
  match b_title body, b_description body, b_category body,
        b_location body, b_reportedBy body with
  | Some title, Some description, Some category,
    Some location, Some reportedBy =>
      if (String.eqb title "" || String.eqb description ""
          || String.eqb category "")%bool
      then (Failure 400 "Missing required fields: title, description, category, location, reportedBy", db)
      else if locationIncomplete location
      then (Failure 400 "Location must include latitude, longitude, and address", db)
      else
        match findUserById reportedBy db with
        | None => (Failure 404 "User not found", db)
        | Some user =>
            match defaultLocationSet user with
            | None => (Failure 400 "User must set default location before reporting issues", db)
            | Some userLoc =>
                let distance :=
                  calculateDistance getDistance userLoc location in
                let maxAllowedRadius := maxAllowedRadius user in
                if gtR distance maxAllowedRadius
                then (GeofenceFailure 400
                        {| distance := jsRound (distance * 100) / 100;
                           maxAllowed := maxAllowedRadius;
                           userLocation := userLoc;
                           issueLocation := location |}, db)
                else
                  match saveNew now
                          (newIssue (nextId db) now title description
                                    category body location reportedBy) db with
                  | Some (doc, db') =>
                      (IssueResult 201 "Issue created successfully" doc, db')
                  | None => (Failure 500 "Failed to create issue", db)
                  end
            end
        end
  | _, _, _, _, _ =>
      (Failure 400 "Missing required fields: title, description, category, location, reportedBy", db)
  end.

(** *** PUT /api/v1/issues/:id *)

Definition validStatuses : list string :=
  ["reported"; "in_review"; "in_progress"; "resolved"; "closed"; "rejected"].

(** [updateData], applied as a [$set]: [reviewedAt] is not a path of the
    schema and is dropped; the timestamps option sets [updatedAt]. *)
Definition applyUpdateData (now : Date) (body : UpdateBody) (doc : Issue)
  : Issue :=
  let doc :=
    if truthyStr (u_status body)
    then set_status (orDefault (u_status body) "") doc else doc in
  let doc :=
    if truthyStr (u_priority body)
    then set_priority (orDefault (u_priority body) "") doc else doc in
  let doc :=
    match u_tags body with
    | Some tags => set_tags (map (fun tag => toLowerCase (trim tag)) tags) doc
    | None => doc
    end in
  set_updatedAt now doc.

(** [runValidators]: the validators of the paths that are set. *)
Definition updateDataValid (body : UpdateBody) : bool :=
  ((if truthyStr (u_status body)
    then includes statusValues (orDefault (u_status body) "") else true)
   && (if truthyStr (u_priority body)
       then includes priorityValues (orDefault (u_priority body) "")
       else true)
   && (match u_tags body with
       | Some tags =>
           forallb (fun tag =>
             Nat.leb (String.length (toLowerCase (trim tag))) 50) tags
       | None => true
       end))%bool.

Definition updateIssue (now : Date) (c : Credentials) (id : ObjectId)
    (body : UpdateBody) (db : Db) : Response * Db :=
  match adminOnly c with
  | Some r => (r, db)
  | None =>
      if (truthyStr (u_status body)
          && negb (includes validStatuses (orDefault (u_status body) "")))%bool
      then (Failure 400 "Invalid status. Valid statuses are: reported, in_review, in_progress, resolved, closed, rejected", db)
      else if negb (updateDataValid body)
      then (Failure 500 "Failed to update issue", db)
      else
        match findByIdAndUpdate id (applyUpdateData now body) (issues db) with
        | None => (Failure 404 "Issue not found", db)
        | Some (updatedIssue, issues') =>
            (IssueResult 200 "Issue updated successfully" updatedIssue,
             set_issues issues' db)
        end
  end.

(** *** POST /api/v1/issues/:id/flag *)

Definition applyFlag (now : Date) (reason : string) (reportedBy : ObjectId)
    (doc : Issue) : Issue :=
  set_updatedAt now
    (set_flaggedAt (Some now)
       (set_flaggedBy (Some reportedBy)
          (set_flaggedReason (Some reason)
             (set_isFlagged true doc)))).

Definition flagIssue (now : Date) (id : ObjectId) (body : FlagBody) (db : Db)
  : Response * Db :=
  match f_reason body, f_reportedBy body with
  | Some reason, Some reportedBy =>
      if String.eqb reason ""
      then (Failure 400 "Flag reason and reporter ID are required", db)
      else if negb (Nat.leb (String.length reason) 500)
      then (Failure 500 "Failed to flag issue", db)
      else
        match findByIdAndUpdate id (applyFlag now reason reportedBy)
                (issues db) with
        | None => (Failure 404 "Issue not found", db)
        | Some (issue, issues') =>
            (IssueResult 200 "Issue flagged successfully" issue,
             set_issues issues' db)
        end
  | _, _ => (Failure 400 "Flag reason and reporter ID are required", db)
  end.

(** *** The server as a machine: one request after the other *)

Inductive Request : Type :=
  | PostIssue (now : Date) (body : CreateBody)
  | PutIssue (now : Date) (c : Credentials) (id : ObjectId)
             (body : UpdateBody)
  | PostFlag (now : Date) (id : ObjectId) (body : FlagBody).

Definition handle (r : Request) (db : Db) : Response * Db :=
  match r with
  | PostIssue now body => createIssue now body db
  | PutIssue now c id body => updateIssue now c id body db
  | PostFlag now id body => flagIssue now id body db
  end.

Definition serve (requests : list Request) (db : Db) : Db :=
  fold_left (fun db r => snd (handle r db)) requests db.

End Server.


(* ================================================================= *)
(** ** The configuration (src/backend/src/models/User.ts, lines 1765-1858) *)

(** [config.app.autoHideFlagThreshold], by default.  No handler reads it. *)
Definition autoHideFlagThreshold : nat := 3%nat.

(* ================================================================= *)
(** ** Vocabulary of the properties *)

(** The transition graph of the specification (section 4.3), edge by edge
    as it is written there; [admin] tells whether the actor is an admin. *)
Definition specEdge (admin : bool) (from to : Status) : bool :=
  match from, to with
  | Reported, InReview => true
  | Reported, Rejected => true
  | InReview, InProgress => true
  | InReview, Rejected => true
  | InProgress, Resolved => true
  | InProgress, Rejected => true
  | Resolved, Closed => true
  | _, Closed => admin
  | Resolved, InProgress => admin
  | _, _ => false
  end.

(** The status events recorded for an issue. *)
Definition historyOf (id : ObjectId) (db : Db) : list StatusHistory :=
  filter (fun h => Nat.eqb (issueId h) id) (statusHistories db).

(** Newest first. *)
Definition newerFirst (a b : Issue) : Prop := (createdAt b <= createdAt a)%Z.

Definition voteList (voteType : VoteType) (i : Issue) : list ObjectId :=
  match voteType with
  | upvote => upvotes i
  | downvote => downvotes i
  end.

Definition otherVote (voteType : VoteType) : VoteType :=
  match voteType with
  | upvote => downvote
  | downvote => upvote
  end.

(** *** Sample data, after [sampleData] (src/unnamed/part_006) *)

Definition sampleReporter : User :=
  mkUser 1%nat "John Smith" "john.smith@example.com" "user" false
         (Some (mkUserLocation (mkPoint 40.7128 (-74.0060))
                               (Some "123 Main St, New York, NY 10001")))
         5.

Definition sampleIssue : Issue :=
  {| _id := 1%nat;
     title := "Pothole on Main Street causing traffic delays";
     description := "Large pothole at the intersection of Main Street and 5th Avenue is causing significant traffic delays.";
     category := "infrastructure";
     priority := "high";
     status := "reported";
     location := mkLocation (mkPoint 40.7128 (-74.0060))
                            "123 Main St & 5th Ave, New York, NY 10001"
                            (Some "Manhattan") (Some "Ward 1");
     reportedBy := 1%nat;
     assignedTo := None;
     images := [];
     upvotes := [];
     downvotes := [];
     views := 0%Z;
     isVerified := false;
     estimatedResolutionDate := None;
     actualResolutionDate := None;
     resolutionNotes := None;
     tags := ["traffic"; "safety"; "road-damage"];
     isPublic := true;
     isFlagged := false;
     flaggedReason := None;
     flaggedBy := None;
     flaggedAt := None;
     createdAt := 1000%Z;
     updatedAt := 1000%Z |}.

(** The body of the request that creates [sampleIssue]. *)
Definition sampleBody : CreateBody :=
  {| b_title := Some "Pothole on Main Street causing traffic delays";
     b_description := Some "Large pothole at the intersection of Main Street and 5th Avenue is causing significant traffic delays.";
     b_category := Some "infrastructure";
     b_priority := Some "high";
     b_location := Some (location sampleIssue);
     b_images := None;
     b_tags := Some ["traffic"; "safety"; "road-damage"];
     b_isPublic := None;
     b_reportedBy := Some 1%nat |}.




(** Before and after that request. *)
Definition emptyDb : Db := mkDb [sampleReporter] [] [] 1%nat.
Definition sampleDb : Db := mkDb [sampleReporter] [sampleIssue] [] 2%nat.

(** The sample issue in other states. *)
Definition inProgressIssue : Issue := set_status "in_progress" sampleIssue.

Definition resolvedIssue : Issue :=
  set_actualResolutionDate (Some 4000%Z) (set_status "resolved" sampleIssue).

Definition flaggedIssue : Issue :=
  set_flaggedAt (Some 1500%Z)
    (set_flaggedBy (Some 2%nat)
       (set_flaggedReason (Some "spam") (set_isFlagged true sampleIssue))).

Definition dbWith (i : Issue) : Db := mkDb [sampleReporter] [i] [] 2%nat.

(** An issue is flagged in a database. *)
Definition flaggedIn (id : ObjectId) (db : Db) : Prop :=
  exists doc, findIssueById id db = Some doc /\ isFlagged doc = true.

Definition adminCredentials : Credentials :=
  Verified (mkJwtUser 4%nat "admin@civictrack.com" "admin").

Definition statusOnly (s : string) : UpdateBody :=
  mkUpdateBody (Some s) None None.

Definition flagBy (reporter : ObjectId) (reason : string) : FlagBody :=
  mkFlagBody (Some reason) (Some reporter).

Definition emptyQuery : ListQuery :=
  mkListQuery None None None None None None None None None None.

Definition noTextSearch (_ : string) (_ : Issue) : bool := true.

(* ================================================================= *)
(** ** More of the geolocation utilities
       (src/unnamed/part_006, lines 446-500) *)

From Stdlib Require Import DecimalString DecimalZ DecimalPos.

(** [Location] of the backend types (src/backend/src/types/index.ts):
    coordinates with an optional address and locality. *)
Record GeoLocation : Type := mkGeoLocation
  { geoPoint :> Point;
    geoAddress : option string;
    geoLocality : option string }.

(** [findCenterPoint]: an exception is the message on the left. *)
Definition findCenterPoint (locations : list GeoLocation)
  : string + GeoLocation :=
  match locations with
  | [] => inl "Cannot find center of empty locations array"
  | [firstLocation] => inr firstLocation
  | _ =>
      let totalLat :=
        fold_left (fun total (location : GeoLocation) =>
                     total + latitude location)
                  locations 0%R in
      let totalLng :=
        fold_left (fun total (location : GeoLocation) =>
                     total + longitude location)
                  locations 0%R in
      inr (mkGeoLocation
             (mkPoint (totalLat / INR (List.length locations))
                      (totalLng / INR (List.length locations)))
             None None)
  end.

(** An integer in a template literal; integers below [10^21] in size print
    in plain decimal notation. *)
Definition showInteger (z : Z) : string := NilZero.string_of_int (Z.to_int z).

(** [generateLocalityFromCoordinates].  [times] is the product of two
    doubles, which is not the product of the reals they stand for (the
    product of 0.29 and 100 is 28.999999999999996); [Math.floor] of the
    double it returns is [Int_part]. *)
Definition generateLocalityFromCoordinates (times : R -> R -> R)
    (latitude longitude : R) : string :=
  let latGrid := Int_part (times latitude 100) in
  let lngGrid := Int_part (times longitude 100) in
  "locality_" ++ showInteger latGrid ++ "_" ++ showInteger lngGrid.

(* ================================================================= *)
(** ** More of the Issue model (src/unnamed/part_007, lines 214-303) *)

(** The virtuals [upvoteCount], [downvoteCount], [netVotes] and
    [isResolved]; the vote arrays of a document are always present. *)
Definition upvoteCount (this : Issue) : Z := Z.of_nat (List.length (upvotes this)).

Definition downvoteCount (this : Issue) : Z :=
  Z.of_nat (List.length (downvotes this)).

Definition netVotes (this : Issue) : Z := (upvoteCount this - downvoteCount this)%Z.

Definition isResolved (this : Issue) : bool :=
  (String.eqb (status this) "resolved" || String.eqb (status this) "closed")%bool.

(** [issueSchema.statics.findNearby], with the query evaluated on the
    collection; the radius defaults to 5. *)
Definition findNearby (centerLatitude centerLongitude : R)
    (radiusKm : option R) (coll : list Issue) : list Issue :=
  let radiusKm := orDefault radiusKm 5%R in
  let radiusInDegrees := (radiusKm / 111)%R in
  filter (fun doc =>
            leR (centerLatitude - radiusInDegrees) (latitude (location doc))
            && leR (latitude (location doc)) (centerLatitude + radiusInDegrees)
            && leR (centerLongitude - radiusInDegrees)
                   (longitude (location doc))
            && leR (longitude (location doc))
                   (centerLongitude + radiusInDegrees)
            && Bool.eqb (isPublic doc) true
            && Bool.eqb (isFlagged doc) false)%bool
         coll.

(** A vote record is well formed when no user occurs twice in a list or in
    both lists. *)
Definition votesWellFormed (this : Issue) : Prop :=
  NoDup (upvotes this) /\ NoDup (downvotes this)
  /\ forall userId, In userId (upvotes this) -> ~ In userId (downvotes this).

(** A character occurs in a string. *)
Fixpoint containsChar (c : ascii) (s : string) : bool :=
  match s with
  | EmptyString => false
  | String x r => (Ascii.eqb x c || containsChar c r)%bool
  end.

(* ================================================================= *)
(** ** More of the server (src/backend/src/models/User.ts) *)

(** *** GET /api/v1/issues/:id (lines 1067-1092); the response has no
        message. *)
Definition getIssue (id : ObjectId) (db : Db) : Response :=
  match findIssueById id db with
  | None => Failure 404 "Issue not found"
  | Some issue => IssueResult 200 "" issue
  end.

(** *** DELETE /api/v1/issues/:id (lines 1315-1342) *)

(** [findByIdAndDelete]: the first document with that id is removed and
    returned. *)
Fixpoint findByIdAndDelete (id : ObjectId) (coll : list Issue)
  : option (Issue * list Issue) :=
  match coll with
  | [] => None
  | doc :: rest =>
      if Nat.eqb (_id doc) id then Some (doc, rest)
      else match findByIdAndDelete id rest with
           | Some (deleted, rest') => Some (deleted, doc :: rest')
           | None => None
           end
  end.

(** The answer on the right is the message of a success without data. *)
Definition deleteIssue (c : Credentials) (id : ObjectId) (db : Db)
  : (Response + string) * Db :=
  match adminOnly c with
  | Some r => (inl r, db)
  | None =>
      match findByIdAndDelete id (issues db) with
      | None => (inl (Failure 404 "Issue not found"), db)
      | Some (deletedIssue, issues') =>
          (inr "Issue deleted successfully", set_issues issues' db)
      end
  end.

(** *** PATCH /api/v1/admin/users/:id/ban (lines 1526-1561)

    [banReason] and [bannedAt] are no paths of the user schema and are
    dropped; the body carries a boolean [isBanned]. *)
Definition set_isBanned (v : bool) (u : User) : User :=
  mkUser (user_id u) (name u) (email u) (role u) v (defaultLocation u)
         (preferredRadiusKm u).

Fixpoint findUserByIdAndUpdate (id : ObjectId) (update : User -> User)
    (coll : list User) : option (User * list User) :=
  match coll with
  | [] => None
  | u :: rest =>
      if Nat.eqb (user_id u) id then Some (update u, update u :: rest)
      else match findUserByIdAndUpdate id update rest with
           | Some (u', rest') => Some (u', u :: rest')
           | None => None
           end
  end.

(** The answer on the right is the message and the user of a success. *)
Definition banUser (c : Credentials) (id : ObjectId) (isBanned : bool)
    (db : Db) : (Response + string * User) * Db :=
  match adminOnly c with
  | Some r => (inl r, db)
  | None =>
      match findUserByIdAndUpdate id (set_isBanned isBanned) (users db) with
      | None => (inl (Failure 404 "User not found"), db)
      | Some (user, users') =>
          (inr ((if isBanned then "User banned successfully"
                 else "User unbanned successfully"), user),
           mkDb users' (issues db) (statusHistories db) (nextId db))
      end
  end.

(** *** GET /api/v1/analytics/stats (lines 1345-1355 and 1421-1429): the
        [overview] of the response. *)
Definition countDocuments (p : Issue -> bool) (coll : list Issue) : nat :=
  List.length (filter p coll).

Record Overview : Type := mkOverview
  { ov_total : nat;
    ov_resolved : nat;
    ov_pending : nat;
    ov_inProgress : nat;
    ov_rejected : nat;
    ov_flagged : nat;
    ov_resolutionRate : R }.

Definition analyticsOverview (db : Db) : Overview :=
  let totalIssues := countDocuments (fun _ => true) (issues db) in
  let resolvedIssues :=
    countDocuments (fun i => String.eqb (status i) "resolved") (issues db) in
  let pendingIssues :=
    countDocuments (fun i => String.eqb (status i) "reported") (issues db) in
  let inProgressIssues :=
    countDocuments (fun i => includes ["in_review"; "in_progress"] (status i))
                   (issues db) in
  let rejectedIssues :=
    countDocuments (fun i => String.eqb (status i) "rejected") (issues db) in
  let flaggedIssues :=
    countDocuments (fun i => Bool.eqb (isFlagged i) true) (issues db) in
  {| ov_total := totalIssues;
     ov_resolved := resolvedIssues;
     ov_pending := pendingIssues;
     ov_inProgress := inProgressIssues;
     ov_rejected := rejectedIssues;
     ov_flagged := flaggedIssues;
     ov_resolutionRate :=
       if Nat.ltb 0 totalIssues
       then jsRound (INR resolvedIssues / INR totalIssues * 100)%R
       else 0%R |}.

(** The documents of a list response. *)
Definition pageData (r : Response) : list Issue :=
  match r with
  | IssuePage data _ => data
  | _ => []
  end.

(** A query for another page. *)
Definition atPage (p : Z) (q : ListQuery) : ListQuery :=
  mkListQuery (Some p) (q_limit q) (q_category q) (q_status q) (q_priority q)
              (q_search q) (q_latitude q) (q_longitude q) (q_radius q)
              (q_userId q).

(** *** The token of a request

    [authenticateToken] of the server (lines 579-582) takes the second
    word of the header; [extractTokenFromHeader] of the authentication
    utilities (src/backend/src/utils/auth.ts, lines 60-65) takes what
    follows [Bearer ]. *)
Fixpoint splitSpace (s : string) : list string :=
  match s with
  | EmptyString => [EmptyString]
  | String c r =>
      if Ascii.eqb c " " then EmptyString :: splitSpace r
      else match splitSpace r with
           | [] => [String c EmptyString]
           | word :: words => String c word :: words
           end
  end.

(** [authHeader && authHeader.split(' ')[1]], [None] when falsy. *)
Definition headerToken (authHeader : option string) : option string :=
  match authHeader with
  | None => None
  | Some h =>
      match nth_error (splitSpace h) 1 with
      | Some token => if String.eqb token "" then None else Some token
      | None => None
      end
  end.

Definition extractTokenFromHeader (authHeader : option string)
  : option string :=
  match authHeader with
  | None => None
  | Some h =>
      if (String.eqb h "" || negb (String.prefix "Bearer " h))%bool then None
      else Some (String.substring 7 (String.length h - 7) h)
  end.


(** A report from the equator. *)
Definition equatorLocation : Location :=
  mkLocation (mkPoint 0 36.8) "Equator Road, Nanyuki" None None.

Definition equatorBody : CreateBody :=
  {| b_title := Some "Fallen tree blocks the road";
     b_description :=
       Some "A fallen tree blocks both lanes of the road at the equator sign.";
     b_category := Some "infrastructure";
     b_priority := None;
     b_location := Some equatorLocation;
     b_images := None;
     b_tags := None;
     b_isPublic := None;
     b_reportedBy := Some 1%nat |}.

(** ** What the requests keep

    Properties of a database and of two versions of a document, used to
    state what a sequence of requests preserves. *)

(** Every stored issue passes the validators of the schema. *)
Definition schemaValid (db : Db) : Prop :=
  Forall (fun i => validateIssue i = true) (issues db).

(** Two versions of a document agree on what was reported: everything but
    status, priority, tags, the flag and the date of the last update. *)
Definition sameReport (a b : Issue) : Prop :=
  _id b = _id a
  /\ title b = title a
  /\ description b = description a
  /\ category b = category a
  /\ location b = location a
  /\ reportedBy b = reportedBy a
  /\ assignedTo b = assignedTo a
  /\ images b = images a
  /\ upvotes b = upvotes a
  /\ downvotes b = downvotes a
  /\ views b = views a
  /\ isVerified b = isVerified a
  /\ estimatedResolutionDate b = estimatedResolutionDate a
  /\ actualResolutionDate b = actualResolutionDate a
  /\ resolutionNotes b = resolutionNotes a
  /\ isPublic b = isPublic a
  /\ createdAt b = createdAt a.

(* ================================================================= *)
(** ** The form utilities (src/frontend/src/utils/validation.ts) *)

(** [s.replace(/c/g, r)] for a pattern of one character. *)
Fixpoint replaceAll (c : ascii) (r : string) (s : string) : string :=
  match s with
  | EmptyString => EmptyString
  | String x rest =>
      if Ascii.eqb x c then (r ++ replaceAll c r rest)%string
      else String x (replaceAll c r rest)
  end.

(** The double quote. *)
Definition doubleQuote : ascii := "034"%char.

Definition sanitizeHtml (input : string) : string :=
  if String.eqb input "" then ""%string
  else
    replaceAll "/" "&#x2F;"
      (replaceAll "'" "&#x27;"
         (replaceAll doubleQuote "&quot;"
            (replaceAll ">" "&gt;"
               (replaceAll "<" "&lt;" input)))).

Record ValidationResult : Type := mkValidationResult
  { isValid : bool;
    errors : list string }.

(** [{isValid: errors.length === 0, errors}]. *)
Definition validationResult (errors : list string) : ValidationResult :=
  mkValidationResult (Nat.eqb (List.length errors) 0) errors.

Definition validateIssueTitle (title : string) : ValidationResult :=
  validationResult
    (if String.eqb title "" then ["Title is required"]
     else if Nat.ltb (String.length title) 10
     then ["Title must be at least 10 characters long"]
     else if Nat.ltb 500 (String.length title)
     then ["Title cannot exceed 500 characters"]
     else [])%string.

Definition validateIssueDescription (description : string)
  : ValidationResult :=
  validationResult
    (if String.eqb description "" then ["Description is required"]
     else if Nat.ltb (String.length description) 20
     then ["Description must be at least 20 characters long"]
     else if Nat.ltb 2000 (String.length description)
     then ["Description cannot exceed 2000 characters"]
     else [])%string.

(* ================================================================= *)
(** ** The page numbers of the pagination component
       (src/unnamed/part_013, lines 21-49) *)

Inductive PageItem : Type :=
  | PageNumber (n : Z)
  | Dots.

(** The values of [i] in [for (let i = lo; i <= hi; i++)]. *)
Definition loopRange (lo hi : Z) : list Z :=
  map (fun k => (lo + Z.of_nat k)%Z) (seq 0 (Z.to_nat (hi - lo + 1))).

Definition getVisiblePages (currentPage totalPages : Z) : list PageItem :=
  let delta := 2%Z in
  let range :=
    loopRange (Z.max 2 (currentPage - delta))
              (Z.min (totalPages - 1) (currentPage + delta)) in
  let rangeWithDots :=
    if Z.ltb 2 (currentPage - delta) then [PageNumber 1; Dots]
    else [PageNumber 1] in
  let rangeWithDots := (rangeWithDots ++ map PageNumber range)%list in
  if Z.ltb (currentPage + delta) (totalPages - 1)
  then (rangeWithDots ++ [Dots; PageNumber totalPages])%list
  else if Z.ltb 1 totalPages
  then (rangeWithDots ++ [PageNumber totalPages])%list
  else rangeWithDots.

(** The numbers among the items, in their order. *)
Fixpoint pageNumbers (items : list PageItem) : list Z :=
  match items with
  | [] => []
  | PageNumber n :: rest => n :: pageNumbers rest
  | Dots :: rest => pageNumbers rest
  end.

(* ================================================================= *)
(** * Properties *)

(** ** Geolocation *)

Local Open Scope R_scope.

Lemma isWithinRadius_iff (getDistance : LatLon -> LatLon -> R)
    (center point : Point) (radiusKm : R) :
  isWithinRadius getDistance center point radiusKm = true
  <-> calculateDistance getDistance center point <= radiusKm.
Proof.
  unfold isWithinRadius, leR.
  destruct (Rle_dec (calculateDistance getDistance center point) radiusKm);
    split; intro H; try reflexivity; try assumption; try discriminate.
  contradiction.
Qed.

Lemma haversineMetres_diag (a : LatLon) : haversineMetres a a = 0.
Proof.
  unfold haversineMetres, toRad.
  replace ((lat a - lat a) * PI / 180 / 2) with 0 by lra.
  replace ((lon a - lon a) * PI / 180 / 2) with 0 by lra.
  rewrite sin_0.
  replace (0 * 0 + cos (lat a * PI / 180) * cos (lat a * PI / 180) * (0 * 0))
    with 0 by lra.
  rewrite sqrt_0, asin_0. lra.
Qed.

Lemma sin_sqr_opp (x : R) : sin (- x) * sin (- x) = sin x * sin x.
Proof. rewrite sin_neg. lra. Qed.

Lemma haversineMetres_sym (a b : LatLon) :
  haversineMetres a b = haversineMetres b a.
Proof.
  unfold haversineMetres, toRad.
  replace ((lat a - lat b) * PI / 180 / 2)
    with (- ((lat b - lat a) * PI / 180 / 2)) by lra.
  replace ((lon a - lon b) * PI / 180 / 2)
    with (- ((lon b - lon a) * PI / 180 / 2)) by lra.
  rewrite !sin_sqr_opp.
  rewrite (Rmult_comm (cos (lat b * PI / 180)) (cos (lat a * PI / 180))).
  reflexivity.
Qed.

(** C8.  Over the haversine distance of the spec, [distanceKm a a = 0] and
    [distanceKm a b = distanceKm b a] for all points, and [isWithinRadius
    center point r] holds exactly when [distanceKm center point <= r]. *)
Theorem distanceKm_zero_symmetric_within (a b center point : Point) (r : R) :
  distanceKm a a = 0
  /\ distanceKm a b = distanceKm b a
  /\ (isWithinRadius haversineMetres center point r = true
      <-> distanceKm center point <= r).
Proof.
  unfold distanceKm, calculateDistance. repeat split.
  - rewrite haversineMetres_diag. lra.
  - rewrite (haversineMetres_sym (mkLatLon (latitude a) (longitude a))).
    reflexivity.
  - intro H. apply isWithinRadius_iff in H. exact H.
  - intro H. apply isWithinRadius_iff. exact H.
Qed.

(** *** The bounding box *)

Lemma lngDivisor_pos (center : Point) :
  -90 < latitude center < 90 -> 0 < lngDivisor center.
Proof.
  intros [Hlo Hhi]. unfold lngDivisor.
  assert (HPI := PI_RGT_0).
  apply Rmult_lt_0_compat; [lra |].
  apply cos_gt_0; nra.
Qed.

(** Within a ten-thousandth of a degree of a pole the divisor is the
    cosine of the latitude itself, and small: a radius of one kilometre or
    more gives a longitude delta of more than a full turn. *)
Lemma lngDivisor_near_pole (center : Point) :
  -90 < latitude center < 90 ->
  89.9999 <= Rabs (latitude center) ->
  0 < lngDivisor center < 3 / 10000.
Proof.
  intros Hlat Hnear. split; [apply lngDivisor_pos; exact Hlat |].
  assert (HPI := PI_RGT_0). assert (HPI4 := PI_4).
  unfold lngDivisor.
  assert (Hcos : cos (latitude center * PI / 180)
                 = sin ((90 - Rabs (latitude center)) * PI / 180)).
  { unfold Rabs. destruct (Rcase_abs (latitude center)) as [Hneg | Hpos].
    - replace ((90 - - latitude center) * PI / 180)
        with (PI / 2 - - (latitude center * PI / 180)) by lra.
      rewrite sin_shift, cos_neg. reflexivity.
    - replace ((90 - latitude center) * PI / 180)
        with (PI / 2 - latitude center * PI / 180) by lra.
      rewrite sin_shift. reflexivity. }
  rewrite Hcos.
  assert (Habs : Rabs (latitude center) < 90).
  { unfold Rabs. destruct (Rcase_abs (latitude center)); lra. }
  set (y := (90 - Rabs (latitude center)) * PI / 180) in *.
  assert (Hy0 : 0 < y) by (unfold y; nra).
  assert (Hy1 : y <= PI / 1800000) by (unfold y; nra).
  assert (Hsy : sin y < y) by (apply sin_lt_x; exact Hy0).
  lra.
Qed.

Lemma lngDelta_near_pole (center : Point) (radiusKm : R) :
  -90 < latitude center < 90 ->
  89.9999 <= Rabs (latitude center) ->
  1 <= radiusKm ->
  360 < radiusKm / lngDivisor center.
Proof.
  intros Hlat Hnear Hr.
  destruct (lngDivisor_near_pole center Hlat Hnear) as [Hpos Hsmall].
  apply Rmult_lt_reg_r with (lngDivisor center); [exact Hpos |].
  replace (radiusKm / lngDivisor center * lngDivisor center) with radiusKm
    by (field; lra).
  nra.
Qed.

(** C9 (as stated, refuted).  The cosine by which [generateBoundingBox]
    divides is not clamped: a ten-thousandth of a degree from the pole the
    divisor is the small cosine itself, and the box of one kilometre
    reaches beyond the whole range of longitudes on both sides. *)
Lemma generateBoundingBox_near_pole_not_clamped :
  let center := mkPoint 89.9999 0 in
  let box := generateBoundingBox center 1 in
  0 < lngDivisor center < 3 / 10000
  /\ 180 < east box
  /\ west box < -180.
Proof.
  assert (Hlat : -90 < latitude (mkPoint 89.9999 0) < 90)
    by (cbn [latitude]; lra).
  assert (Hnear : 89.9999 <= Rabs (latitude (mkPoint 89.9999 0))).
  { cbn [latitude]. rewrite Rabs_right; lra. }
  pose proof (lngDelta_near_pole (mkPoint 89.9999 0) 1 Hlat Hnear
                ltac:(lra)) as Hdelta.
  cbv zeta. split; [exact (lngDivisor_near_pole _ Hlat Hnear) |].
  unfold generateBoundingBox, lngDegreesPerKm.
  cbn [east west longitude].
  unfold Rdiv in *. split; lra.
Qed.

(** C9 (amended).  For a centre of latitude strictly between -90 and 90,
    [generateBoundingBox] uses [latDelta = radiusKm / 111] and
    [lngDelta = radiusKm / (111 * cos latitude)], and the divisor is
    positive.  The cosine is not clamped: within a ten-thousandth of a
    degree of either pole, a radius of one kilometre or more gives a
    longitude delta of more than 360 degrees. *)
Theorem generateBoundingBox_deltas (center : Point) (radiusKm : R) :
  -90 < latitude center < 90 ->
  let box := generateBoundingBox center radiusKm in
  let cosLat := cos (latitude center * PI / 180) in
  north box = latitude center + radiusKm / 111
  /\ south box = latitude center - radiusKm / 111
  /\ east box = longitude center + radiusKm / (111 * cosLat)
  /\ west box = longitude center - radiusKm / (111 * cosLat)
  /\ 0 < 111 * cosLat
  /\ (89.9999 <= Rabs (latitude center) -> 1 <= radiusKm ->
      360 < radiusKm / (111 * cosLat)).
Proof.
  intros Hlat box cosLat. subst box cosLat.
  unfold generateBoundingBox, latDegreesPerKm, lngDegreesPerKm.
  cbn [north south east west].
  repeat split.
  - unfold Rdiv. ring.
  - unfold Rdiv. ring.
  - unfold lngDivisor, Rdiv. ring.
  - unfold lngDivisor, Rdiv. ring.
  - exact (lngDivisor_pos center Hlat).
  - intros Hnear Hr. exact (lngDelta_near_pole center radiusKm Hlat Hnear Hr).
Qed.

Lemma generateBoundingBox_deltas_witness :
  let center := mkPoint 0 0 in
  let box := generateBoundingBox center 111 in
  north box = 0 + 111 / 111 /\ 0 < 111 * cos (0 * PI / 180).
Proof.
  assert (H : -90 < latitude (mkPoint 0 0) < 90) by (simpl; lra).
  destruct (generateBoundingBox_deltas (mkPoint 0 0) 111 H)
    as [Hn [_ [_ [_ [Hpos _]]]]].
  split; [exact Hn | exact Hpos].
Defined.

(** ** Votes *)

Lemma count_occ_purged (u : ObjectId) (l : list ObjectId) :
  count_occ Nat.eq_dec (filter (fun id => negb (Nat.eqb id u)) l) u = 0%nat.
Proof.
  induction l as [| x l IH]; simpl; [reflexivity |].
  destruct (Nat.eqb x u) eqn:E; simpl; [exact IH |].
  destruct (Nat.eq_dec x u) as [-> | _]; [| exact IH].
  rewrite Nat.eqb_refl in E. discriminate.
Qed.

Lemma count_occ_purged_other (u w : ObjectId) (l : list ObjectId) :
  w <> u ->
  count_occ Nat.eq_dec (filter (fun id => negb (Nat.eqb id u)) l) w
  = count_occ Nat.eq_dec l w.
Proof.
  intro Hw. induction l as [| x l IH]; simpl; [reflexivity |].
  destruct (Nat.eqb x u) eqn:E; simpl.
  - apply Nat.eqb_eq in E. subst x.
    destruct (Nat.eq_dec u w) as [-> | _]; [contradiction | exact IH].
  - destruct (Nat.eq_dec x w); rewrite IH; reflexivity.
Qed.

Lemma existsb_count_occ (u : ObjectId) (l : list ObjectId) :
  existsb (Nat.eqb u) l = negb (Nat.eqb (count_occ Nat.eq_dec l u) 0).
Proof.
  induction l as [| x l IH]; simpl; [reflexivity |].
  destruct (Nat.eq_dec x u) as [-> | Hne]; simpl.
  - rewrite Nat.eqb_refl. reflexivity.
  - rewrite IH. destruct (Nat.eqb u x) eqn:E; [| reflexivity].
    apply Nat.eqb_eq in E. congruence.
Qed.

(** C10.  After [toggleVote userId voteType] the user occurs exactly once in
    the list of [voteType] and not at all in the other list, so
    [hasUserVoted] answers [voteType]; this holds from any state, hence
    after any number of earlier calls.  The entries of other users are
    untouched. *)
Theorem toggleVote_single_entry (this : Issue) (userId : ObjectId)
    (voteType : VoteType) :
  let voted := toggleVote this userId voteType in
  count_occ Nat.eq_dec (voteList voteType voted) userId = 1%nat
  /\ count_occ Nat.eq_dec (voteList (otherVote voteType) voted) userId = 0%nat
  /\ hasUserVoted voted userId = Some voteType
  /\ (forall (other : ObjectId) (v : VoteType),
        other <> userId ->
        count_occ Nat.eq_dec (voteList v voted) other
        = count_occ Nat.eq_dec (voteList v this) other).
Proof.
  destruct this; destruct voteType; unfold toggleVote, hasUserVoted; simpl;
    rewrite ?existsb_count_occ, ?count_occ_app, ?count_occ_purged; simpl;
    (destruct (Nat.eq_dec userId userId) as [_ | Hne]; [| contradiction]);
    simpl; repeat split; try reflexivity;
    intros other [|] Hother; simpl;
    rewrite ?count_occ_app, ?count_occ_purged_other by exact Hother; simpl;
    try reflexivity;
    (destruct (Nat.eq_dec userId other) as [-> | _]; [contradiction | lia]).
Qed.

Lemma toggleVote_single_entry_witness :
  let once := toggleVote sampleIssue 2 upvote in
  let twice := toggleVote once 2 downvote in
  hasUserVoted once 2 = Some upvote
  /\ hasUserVoted twice 2 = Some downvote
  /\ count_occ Nat.eq_dec (upvotes twice) 2%nat = 0%nat
  /\ count_occ Nat.eq_dec (upvotes twice) 3%nat
     = count_occ Nat.eq_dec (upvotes once) 3%nat.
Proof.
  intros once twice.
  destruct (toggleVote_single_entry sampleIssue 2 upvote) as [_ [_ [H1 _]]].
  destruct (toggleVote_single_entry once 2 downvote) as [_ [H0 [H2 Hother]]].
  split; [exact H1 |]. split; [exact H2 |]. split; [exact H0 |].
  apply (Hother 3%nat upvote). lia.
Defined.

(** ** Submission: the geofence of POST /issues *)

Lemma truthyNum_zero : truthyNum 0 = false.
Proof.
  unfold truthyNum. destruct (Req_dec_T 0 0) as [_ | H]; [reflexivity |].
  exfalso. apply H. reflexivity.
Qed.

Lemma truthyNum_true (x : R) : x <> 0 -> truthyNum x = true.
Proof.
  intro H. unfold truthyNum. destruct (Req_dec_T x 0); [contradiction | reflexivity].
Qed.

Lemma leR_true (x y : R) : x <= y -> leR x y = true.
Proof.
  intro H. unfold leR. destruct (Rle_dec x y); [reflexivity | contradiction].
Qed.


Lemma gtR_false (x y : R) : x <= y -> gtR x y = false.
Proof.
  intro H. unfold gtR. destruct (Rgt_dec x y); [lra | reflexivity].
Qed.

Lemma validateIssue_intro (i : Issue) :
  coordinatesValid (location i) = true ->
  fieldsValid i = true ->
  validateIssue i = true.
Proof.
  intros Hc Hf. unfold validateIssue. rewrite Hc, Hf. reflexivity.
Qed.

Lemma orNum_truthy (x d : R) : x <> 0 -> orNum x d = x.
Proof. intro H. unfold orNum. rewrite truthyNum_true by exact H. reflexivity. Qed.



Lemma preSave_unmodified (now : Date) (doc : Issue) :
  preSave false false now doc = doc.
Proof. reflexivity. Qed.

(** On a new document the middleware changes nothing, whichever paths count
    as modified: the status is [reported] and no date or flag is set. *)
Lemma preSave_newIssue (modStatus modIsFlagged : bool) (now : Date)
    (id : ObjectId) (title description category : string) (body : CreateBody)
    (location : Location) (reportedBy : ObjectId) :
  preSave modStatus modIsFlagged now
    (newIssue id now title description category body location reportedBy)
  = newIssue id now title description category body location reportedBy.
Proof. destruct modStatus, modIsFlagged; reflexivity. Qed.





(** ** The collection under [findByIdAndUpdate] *)

Lemma findByIdAndUpdate_lookup (id : ObjectId) (f : Issue -> Issue)
    (coll : list Issue) :
  (forall d, _id (f d) = _id d) ->
  match find (fun i => Nat.eqb (_id i) id) coll with
  | Some doc =>
      exists coll',
        findByIdAndUpdate id f coll = Some (f doc, coll')
        /\ forall id',
             find (fun i => Nat.eqb (_id i) id') coll'
             = if Nat.eqb id' id then Some (f doc)
               else find (fun i => Nat.eqb (_id i) id') coll
  | None => findByIdAndUpdate id f coll = None
  end.
Proof.
  intro Hid. induction coll as [| d rest IH]; simpl; [reflexivity |].
  destruct (Nat.eqb (_id d) id) eqn:E.
  - eexists. split; [reflexivity |].
    intro id'. simpl. rewrite Hid.
    apply Nat.eqb_eq in E. subst id.
    rewrite (Nat.eqb_sym id' (_id d)).
    destruct (Nat.eqb (_id d) id'); reflexivity.
  - destruct (find (fun i => Nat.eqb (_id i) id) rest) as [doc |].
    + destruct IH as [coll' [Hupd Hfind]]. rewrite Hupd.
      eexists. split; [reflexivity |].
      intro id'. simpl. rewrite Hfind.
      destruct (Nat.eqb (_id d) id') eqn:E'; [| reflexivity].
      apply Nat.eqb_eq in E'. subst id'. rewrite E. reflexivity.
    + rewrite IH. reflexivity.
Qed.

Lemma applyUpdateData_id (now : Date) (body : UpdateBody) (d : Issue) :
  _id (applyUpdateData now body d) = _id d.
Proof.
  unfold applyUpdateData.
  destruct (truthyStr (u_status body)), (truthyStr (u_priority body)),
    (u_tags body); destruct d; reflexivity.
Qed.

Lemma applyUpdateData_status (now : Date) (body : UpdateBody) (d : Issue)
    (s : string) :
  u_status body = Some s -> s <> ""%string ->
  status (applyUpdateData now body d) = s.
Proof.
  intros Hs Hne. unfold applyUpdateData. rewrite Hs. simpl.
  apply String.eqb_neq in Hne. rewrite Hne. simpl.
  destruct (truthyStr (u_priority body)), (u_tags body); destruct d;
    reflexivity.
Qed.

(** The update touches neither the resolution date nor the flag. *)
Lemma applyUpdateData_keeps (now : Date) (body : UpdateBody) (d : Issue) :
  actualResolutionDate (applyUpdateData now body d) = actualResolutionDate d
  /\ isFlagged (applyUpdateData now body d) = isFlagged d.
Proof.
  unfold applyUpdateData.
  destruct (truthyStr (u_status body)), (truthyStr (u_priority body)),
    (u_tags body); destruct d; split; reflexivity.
Qed.

Lemma applyFlag_id (now : Date) (reason : string) (reporter : ObjectId)
    (d : Issue) :
  _id (applyFlag now reason reporter d) = _id d.
Proof. destruct d; reflexivity. Qed.

Lemma validStatuses_names (s : string) :
  includes validStatuses s = true <-> exists st : Status, s = statusName st.
Proof.
  unfold includes, validStatuses. simpl. split.
  - intro H.
    repeat (apply orb_prop in H; destruct H as [H | H]);
      try discriminate; apply String.eqb_eq in H.
    + exists Reported; exact H.
    + exists InReview; exact H.
    + exists InProgress; exact H.
    + exists Resolved; exact H.
    + exists Closed; exact H.
    + exists Rejected; exact H.
  - intros [st ->]. destruct st; reflexivity.
Qed.

Lemma statusValues_validStatuses : statusValues = validStatuses.
Proof. reflexivity. Qed.

(** ** Status changes: PUT /issues/:id *)

(** C2 (as stated, refuted).  The direct change from REPORTED to RESOLVED is
    not an edge of the graph of the specification, yet the update succeeds
    and the record carries the new status. *)
Lemma updateIssue_reported_to_resolved :
  specEdge true Reported Resolved = false
  /\ status sampleIssue = statusName Reported
  /\ exists doc' db',
       updateIssue 2000%Z adminCredentials 1%nat
                   (statusOnly (statusName Resolved)) sampleDb
       = (IssueResult 200 "Issue updated successfully" doc', db')
       /\ status doc' = statusName Resolved
       /\ findIssueById 1%nat db' = Some doc'.
Proof.
  split; [reflexivity |]. split; [reflexivity |].
  eexists. eexists. split; [reflexivity |]. split; reflexivity.
Qed.

(** C2 (amended).  The status change of an admin fails with the
    invalid-status response, leaving the database unchanged, exactly when
    the requested status is none of the six status names.  There is no
    transition graph: from every current status every one of the six is
    accepted, and the record then carries it. *)
Theorem updateIssue_status_check (now : Date) (c : Credentials)
    (id : ObjectId) (body : UpdateBody) (db : Db) (s : string) :
  adminOnly c = None ->
  u_status body = Some s ->
  s <> ""%string ->
  (fst (updateIssue now c id body db)
   = Failure 400 "Invalid status. Valid statuses are: reported, in_review, in_progress, resolved, closed, rejected"
   <-> forall st : Status, s <> statusName st)
  /\ ((forall st : Status, s <> statusName st) ->
      snd (updateIssue now c id body db) = db)
  /\ (forall (cur new : Status) (doc : Issue),
        s = statusName new ->
        findIssueById id db = Some doc ->
        status doc = statusName cur ->
        updateDataValid body = true ->
        exists doc' db',
          updateIssue now c id body db
          = (IssueResult 200 "Issue updated successfully" doc', db')
          /\ status doc' = statusName new
          /\ findIssueById id db' = Some doc').
Proof.
  intros Hadmin Hs Hne.
  assert (Htruthy : truthyStr (u_status body) = true).
  { rewrite Hs. simpl. apply String.eqb_neq in Hne. rewrite Hne. reflexivity. }
  assert (Hinv : (forall st : Status, s <> statusName st)
                 <-> includes validStatuses s = false).
  { split.
    - intro Hall. destruct (includes validStatuses s) eqn:E; [| reflexivity].
      apply validStatuses_names in E. destruct E as [st Hst].
      exfalso. exact (Hall st Hst).
    - intros E st Hst.
      assert (includes validStatuses s = true)
        by (apply validStatuses_names; exists st; exact Hst).
      congruence. }
  unfold updateIssue. rewrite Hadmin, Htruthy, Hs. cbn [orDefault andb].
  destruct (includes validStatuses s) eqn:Einc; cbn [negb fst snd].
  - split; [| split].
    + split.
      * intro Hfail. exfalso.
        destruct (updateDataValid body); cbn [negb fst] in Hfail;
          [| discriminate Hfail].
        destruct (findByIdAndUpdate id (applyUpdateData now body) (issues db))
          as [[d l] |]; cbn [fst] in Hfail; discriminate Hfail.
      * intro Hall. apply Hinv in Hall. discriminate.
    + intro Hall. apply Hinv in Hall. discriminate.
    + intros cur new doc Hnew Hfind Hcur Hvalid. rewrite Hvalid.
      cbn [negb].
      pose proof (findByIdAndUpdate_lookup id (applyUpdateData now body)
                    (issues db) (applyUpdateData_id now body)) as Hlook.
      unfold findIssueById in Hfind. rewrite Hfind in Hlook.
      destruct Hlook as [coll' [Hupd Hfind']]. rewrite Hupd.
      eexists. eexists. split; [reflexivity |]. split.
      * rewrite <- Hnew. apply applyUpdateData_status; assumption.
      * unfold findIssueById. simpl. rewrite Hfind'.
        rewrite Nat.eqb_refl. reflexivity.
  - split; [| split].
    + split; [intros _; apply Hinv; reflexivity | reflexivity].
    + reflexivity.
    + intros cur new doc Hnew. exfalso.
      assert (includes validStatuses s = true)
        by (apply validStatuses_names; exists new; exact Hnew).
      congruence.
Qed.

Lemma updateIssue_status_check_witness :
  exists doc' db',
    updateIssue 2000%Z adminCredentials 1%nat (statusOnly "closed") sampleDb
    = (IssueResult 200 "Issue updated successfully" doc', db')
    /\ status doc' = statusName Closed
    /\ findIssueById 1%nat db' = Some doc'.
Proof.
  destruct (updateIssue_status_check 2000%Z adminCredentials 1%nat
              (statusOnly "closed") sampleDb "closed"
              eq_refl eq_refl ltac:(discriminate)) as [_ [_ H]].
  exact (H Reported Closed sampleIssue eq_refl eq_refl eq_refl eq_refl).
Defined.


(** ** The sample request *)

Lemma createIssue_sample :
  createIssue haversineMetres 1000%Z sampleBody emptyDb
  = (IssueResult 201 "Issue created successfully" sampleIssue, sampleDb).
Proof.
  assert (Hloc : locationIncomplete (location sampleIssue) = false).
  { unfold locationIncomplete.
    cbn [sampleIssue location point latitude longitude address].
    rewrite !truthyNum_true by lra. reflexivity. }
  assert (Hset : defaultLocationSet sampleReporter
                 = defaultLocation sampleReporter).
  { unfold defaultLocationSet.
    cbn [sampleReporter defaultLocation userPoint latitude longitude].
    rewrite !truthyNum_true by lra. reflexivity. }
  assert (Hnear : gtR (calculateDistance haversineMetres
                         (mkPoint 40.7128 (-74.0060)) (location sampleIssue))
                      (maxAllowedRadius sampleReporter) = false).
  { apply gtR_false. unfold calculateDistance, maxAllowedRadius.
    cbn [sampleIssue sampleReporter location point latitude longitude
         preferredRadiusKm].
    rewrite haversineMetres_diag, orNum_truthy by lra.
    rewrite Rmin_left by lra. lra. }
  assert (Hvalid : validateIssue sampleIssue = true).
  { apply validateIssue_intro; [| reflexivity].
    unfold coordinatesValid.
    cbn [sampleIssue location point latitude longitude].
    rewrite !leR_true by lra. reflexivity. }
  unfold createIssue.
  cbn [sampleBody b_title b_description b_category b_location b_reportedBy
       String.eqb Ascii.eqb Bool.eqb orb].
  rewrite Hloc.
  change (findUserById 1%nat emptyDb) with (Some sampleReporter).
  cbn iota beta. rewrite Hset.
  cbn [sampleReporter defaultLocation userPoint]. rewrite Hnear.
  change (newIssue (nextId emptyDb) 1000%Z _ _ _ sampleBody
                   (location sampleIssue) 1%nat) with sampleIssue.
  unfold saveNew. rewrite Hvalid. reflexivity.
Qed.

(** ** The audit trail *)

(** Case analysis on every scrutinee of the goal, innermost first. *)
Ltac split_cases :=
  repeat match goal with
         | |- context [match ?x with _ => _ end] =>
             lazymatch x with
             | context [match _ with _ => _ end] => fail
             | _ => destruct x
             end
         end.

Lemma createIssue_statusHistories (getDistance : LatLon -> LatLon -> R)
    (now : Date) (body : CreateBody) (db : Db) :
  statusHistories (snd (createIssue getDistance now body db))
  = statusHistories db.
Proof. unfold createIssue, saveNew. split_cases; reflexivity. Qed.

Lemma updateIssue_statusHistories (now : Date) (c : Credentials)
    (id : ObjectId) (body : UpdateBody) (db : Db) :
  statusHistories (snd (updateIssue now c id body db)) = statusHistories db.
Proof. unfold updateIssue. split_cases; reflexivity. Qed.

Lemma flagIssue_statusHistories (now : Date) (id : ObjectId) (body : FlagBody)
    (db : Db) :
  statusHistories (snd (flagIssue now id body db)) = statusHistories db.
Proof. unfold flagIssue. split_cases; reflexivity. Qed.

Lemma handle_statusHistories (getDistance : LatLon -> LatLon -> R)
    (r : Request) (db : Db) :
  statusHistories (snd (handle getDistance r db)) = statusHistories db.
Proof.
  destruct r; simpl.
  - apply createIssue_statusHistories.
  - apply updateIssue_statusHistories.
  - apply flagIssue_statusHistories.
Qed.

Lemma serve_statusHistories (getDistance : LatLon -> LatLon -> R)
    (requests : list Request) (db : Db) :
  statusHistories (serve getDistance requests db) = statusHistories db.
Proof.
  unfold serve. revert db.
  induction requests as [| r rest IH]; intro db; simpl; [reflexivity |].
  rewrite IH. apply handle_statusHistories.
Qed.

(** C5 (as stated, refuted).  An issue is created and moved from REPORTED
    to IN_REVIEW, IN_PROGRESS and RESOLVED, every request succeeding: its
    status history is empty, not of length 4. *)
Lemma status_walk_leaves_history_empty :
  let db' :=
    serve haversineMetres
      [PostIssue 1000%Z sampleBody;
       PutIssue 2000%Z adminCredentials 1%nat (statusOnly "in_review");
       PutIssue 3000%Z adminCredentials 1%nat (statusOnly "in_progress");
       PutIssue 4000%Z adminCredentials 1%nat (statusOnly "resolved")]
      emptyDb in
  (exists doc, findIssueById 1%nat db' = Some doc
               /\ status doc = "resolved"%string
               /\ updatedAt doc = 4000%Z)
  /\ historyOf 1%nat db' = []
  /\ List.length (historyOf 1%nat db') <> 4%nat.
Proof.
  unfold serve. cbn [fold_left handle].
  rewrite createIssue_sample. cbn [snd].
  split; [eexists; split; [reflexivity | split; reflexivity] |].
  split; [reflexivity | discriminate].
Qed.

Lemma adminOnly_failure (c : Credentials) (r : Response) :
  adminOnly c = Some r -> exists code message, r = Failure code message.
Proof.
  unfold adminOnly, authenticateToken, requireAdmin.
  destruct c as [| | user]; try (intro H; injection H as <-; eauto).
  destruct (String.eqb (jwt_role user) "admin"); [discriminate |].
  intro H; injection H as <-; eauto.
Qed.

(** What a successful update did. *)
Lemma updateIssue_success (now : Date) (c : Credentials) (id : ObjectId)
    (body : UpdateBody) (db : Db) (code : nat) (message : string)
    (doc' : Issue) (db' : Db) :
  updateIssue now c id body db = (IssueResult code message doc', db') ->
  adminOnly c = None
  /\ exists doc,
       findIssueById id db = Some doc
       /\ doc' = applyUpdateData now body doc
       /\ forall id',
            findIssueById id' db'
            = if Nat.eqb id' id then Some doc' else findIssueById id' db.
Proof.
  unfold updateIssue, findIssueById.
  destruct (adminOnly c) as [r |] eqn:Hadmin.
  { destruct (adminOnly_failure c r Hadmin) as [k [m ->]].
    intro H; discriminate H. }
  destruct (_ && _)%bool; [intro H; discriminate H |].
  destruct (negb _); [intro H; discriminate H |].
  pose proof (findByIdAndUpdate_lookup id (applyUpdateData now body)
                (issues db) (applyUpdateData_id now body)) as Hlook.
  destruct (find _ (issues db)) as [doc |].
  - destruct Hlook as [coll' [Hfind Hget]]. rewrite Hfind.
    intro Hupd. injection Hupd as _ _ Hdoc Hdb. subst doc' db'.
    split; [reflexivity |].
    exists doc. split; [reflexivity |]. split; [reflexivity |].
    intro id'. simpl. apply Hget.
  - rewrite Hlook. intro H; discriminate H.
Qed.

(** C5 (amended).  No request appends a status event: whatever requests are
    served (creations, status changes, flags), the StatusHistory collection
    and the history of every issue are as before.  A successful status
    change records the new status in the status field of the issue, and
    nowhere else. *)
Theorem status_change_appends_no_event (getDistance : LatLon -> LatLon -> R)
    (requests : list Request) (db : Db) (now : Date) (c : Credentials)
    (id : ObjectId) (body : UpdateBody) (s message : string) (doc' : Issue)
    (db' : Db) :
  updateIssue now c id body (serve getDistance requests db)
  = (IssueResult 200 message doc', db') ->
  u_status body = Some s ->
  s <> ""%string ->
  status doc' = s
  /\ findIssueById id db' = Some doc'
  /\ statusHistories db' = statusHistories db
  /\ historyOf id db' = historyOf id db.
Proof.
  intros Hupd Hs Hne.
  assert (Hhist : statusHistories db' = statusHistories db).
  { rewrite <- (serve_statusHistories getDistance requests db).
    rewrite <- (updateIssue_statusHistories now c id body
                  (serve getDistance requests db)).
    rewrite Hupd. reflexivity. }
  destruct (updateIssue_success _ _ _ _ _ _ _ _ _ Hupd)
    as [_ [doc [_ [Hdoc Hget]]]].
  split; [| split; [| split]].
  - subst doc'. apply applyUpdateData_status; assumption.
  - rewrite Hget, Nat.eqb_refl. reflexivity.
  - exact Hhist.
  - unfold historyOf. rewrite Hhist. reflexivity.
Qed.

Lemma status_change_appends_no_event_witness :
  exists doc' db',
    updateIssue 2000%Z adminCredentials 1%nat (statusOnly "in_review")
                (serve haversineMetres [] sampleDb)
    = (IssueResult 200 "Issue updated successfully" doc', db')
    /\ status doc' = "in_review"%string
    /\ historyOf 1%nat db' = [].
Proof.
  eexists. eexists. split; [reflexivity |].
  destruct (status_change_appends_no_event haversineMetres [] sampleDb
              2000%Z adminCredentials 1%nat (statusOnly "in_review")
              "in_review" _ _ _ eq_refl eq_refl ltac:(discriminate))
    as [Hst [_ [_ Hh]]].
  split; [exact Hst | exact Hh].
Defined.

(** ** The resolution date *)

(** The [pre('save')] middleware keeps the resolution date in step with a
    modified status. *)
Lemma preSave_resolution_date (modIsFlagged : bool) (now : Date) (doc : Issue) :
  (status doc = "resolved"%string ->
   actualResolutionDate doc = None ->
   actualResolutionDate (preSave true modIsFlagged now doc) = Some now)
  /\ (status doc <> "resolved"%string ->
      actualResolutionDate (preSave true modIsFlagged now doc) = None).
Proof.
  split.
  - intros Hs Hd. destruct doc; simpl in Hs, Hd; subst.
    destruct modIsFlagged, isFlagged0, flaggedAt0; reflexivity.
  - intro Hs. apply String.eqb_neq in Hs.
    destruct doc; simpl in Hs. unfold preSave. simpl. rewrite Hs. simpl.
    rewrite Hs. simpl.
    destruct actualResolutionDate0; simpl;
      destruct modIsFlagged, isFlagged0, flaggedAt0; reflexivity.
Qed.

(** The handler of the status change goes through [findByIdAndUpdate]: the
    resolution date of the issue is never touched. *)
Lemma updateIssue_keeps_resolution_date (now : Date) (c : Credentials)
    (id : ObjectId) (body : UpdateBody) (db : Db) (code : nat)
    (message : string) (doc' : Issue) (db' : Db) :
  updateIssue now c id body db = (IssueResult code message doc', db') ->
  exists doc,
    findIssueById id db = Some doc
    /\ actualResolutionDate doc' = actualResolutionDate doc.
Proof.
  intro Hupd.
  destruct (updateIssue_success _ _ _ _ _ _ _ _ _ Hupd)
    as [_ [doc [Hfind [Hdoc _]]]].
  exists doc. split; [exact Hfind |].
  subst doc'. apply applyUpdateData_keeps.
Qed.

(** C6 (the code at the failing inputs).  An admin moves an issue from
    IN_PROGRESS to RESOLVED: the status is RESOLVED and the resolution date
    is still absent, where the middleware would have set it.  An admin
    reopens a resolved issue: the status is IN_PROGRESS and the resolution
    date is still there, where the middleware would have cleared it. *)
Theorem updateIssue_skips_resolution_date :
  (exists doc' db',
     updateIssue 4000%Z adminCredentials 1%nat (statusOnly "resolved")
                 (dbWith inProgressIssue)
     = (IssueResult 200 "Issue updated successfully" doc', db')
     /\ status doc' = "resolved"%string
     /\ actualResolutionDate doc' = None)
  /\ actualResolutionDate
       (preSave true false 4000%Z (set_status "resolved" inProgressIssue))
     = Some 4000%Z
  /\ (exists doc' db',
        updateIssue 5000%Z adminCredentials 1%nat (statusOnly "in_progress")
                    (dbWith resolvedIssue)
        = (IssueResult 200 "Issue updated successfully" doc', db')
        /\ status doc' = "in_progress"%string
        /\ actualResolutionDate doc' = Some 4000%Z)
  /\ actualResolutionDate
       (preSave true false 5000%Z (set_status "in_progress" resolvedIssue))
     = None.
Proof.
  split; [| split; [| split]].
  - eexists. eexists. split; [reflexivity |]. split; reflexivity.
  - reflexivity.
  - eexists. eexists. split; [reflexivity |]. split; reflexivity.
  - reflexivity.
Qed.

(** ** Flags: POST /issues/:id/flag *)

(** A well-formed flag of an existing issue is accepted, whatever the state
    of the issue. *)
Lemma flagIssue_accepts (now : Date) (id : ObjectId) (body : FlagBody)
    (db : Db) (doc : Issue) (reason : string) (reporter : ObjectId) :
  findIssueById id db = Some doc ->
  f_reason body = Some reason ->
  reason <> ""%string ->
  (String.length reason <= 500)%nat ->
  f_reportedBy body = Some reporter ->
  exists db',
    flagIssue now id body db
    = (IssueResult 200 "Issue flagged successfully"
                   (applyFlag now reason reporter doc), db')
    /\ statusHistories db' = statusHistories db
    /\ forall id',
         findIssueById id' db'
         = if Nat.eqb id' id then Some (applyFlag now reason reporter doc)
           else findIssueById id' db.
Proof.
  intros Hfind Hreason Hne Hlen Hrep.
  unfold flagIssue. rewrite Hreason, Hrep.
  apply String.eqb_neq in Hne. rewrite Hne.
  apply Nat.leb_le in Hlen. rewrite Hlen. cbn [negb].
  pose proof (findByIdAndUpdate_lookup id (applyFlag now reason reporter)
                (issues db) (applyFlag_id now reason reporter)) as Hlook.
  unfold findIssueById in Hfind. rewrite Hfind in Hlook.
  destruct Hlook as [coll' [Hupd Hget]]. rewrite Hupd.
  eexists. split; [reflexivity |]. split; [reflexivity |].
  intro id'. unfold findIssueById. simpl. apply Hget.
Qed.

(** A request leaves the database as it was or answers with an issue. *)
Lemma flagIssue_outcome (now : Date) (id : ObjectId) (body : FlagBody)
    (db : Db) :
  snd (flagIssue now id body db) = db
  \/ exists reason reporter doc,
       findIssueById id db = Some doc
       /\ forall id',
            findIssueById id' (snd (flagIssue now id body db))
            = if Nat.eqb id' id then Some (applyFlag now reason reporter doc)
              else findIssueById id' db.
Proof.
  unfold flagIssue.
  destruct (f_reason body) as [reason |]; [| left; reflexivity].
  destruct (f_reportedBy body) as [reporter |]; [| left; reflexivity].
  destruct (String.eqb reason ""); [left; reflexivity |].
  destruct (negb _); [left; reflexivity |].
  pose proof (findByIdAndUpdate_lookup id (applyFlag now reason reporter)
                (issues db) (applyFlag_id now reason reporter)) as Hlook.
  unfold findIssueById.
  destruct (find _ (issues db)) as [doc |].
  - destruct Hlook as [coll' [Hupd Hget]]. rewrite Hupd.
    right. exists reason, reporter, doc. split; [reflexivity |].
    intro id'. simpl. apply Hget.
  - rewrite Hlook. left. reflexivity.
Qed.

Lemma updateIssue_outcome (now : Date) (c : Credentials) (id : ObjectId)
    (body : UpdateBody) (db : Db) :
  snd (updateIssue now c id body db) = db
  \/ exists doc,
       findIssueById id db = Some doc
       /\ forall id',
            findIssueById id' (snd (updateIssue now c id body db))
            = if Nat.eqb id' id then Some (applyUpdateData now body doc)
              else findIssueById id' db.
Proof.
  unfold updateIssue.
  destruct (adminOnly c); [left; reflexivity |].
  destruct (_ && _)%bool; [left; reflexivity |].
  destruct (negb _); [left; reflexivity |].
  pose proof (findByIdAndUpdate_lookup id (applyUpdateData now body)
                (issues db) (applyUpdateData_id now body)) as Hlook.
  unfold findIssueById.
  destruct (find _ (issues db)) as [doc |].
  - destruct Hlook as [coll' [Hupd Hget]]. rewrite Hupd.
    right. exists doc. split; [reflexivity |].
    intro id'. simpl. apply Hget.
  - rewrite Hlook. left. reflexivity.
Qed.

Lemma find_app_l {A : Type} (f : A -> bool) (l extra : list A) (x : A) :
  find f l = Some x -> find f (l ++ extra)%list = Some x.
Proof.
  induction l as [| y l IH]; simpl; [discriminate |].
  destruct (f y); [trivial | exact IH].
Qed.

Lemma createIssue_appends (getDistance : LatLon -> LatLon -> R) (now : Date)
    (body : CreateBody) (db : Db) :
  exists extra,
    issues (snd (createIssue getDistance now body db))
    = (issues db ++ extra)%list.
Proof.
  unfold createIssue, saveNew.
  split_cases; simpl;
    solve [exists []; rewrite app_nil_r; reflexivity
          | eexists; reflexivity].
Qed.

(** No request takes a flag away. *)
Lemma handle_keeps_flag (getDistance : LatLon -> LatLon -> R) (r : Request)
    (db : Db) (id : ObjectId) :
  flaggedIn id db -> flaggedIn id (snd (handle getDistance r db)).
Proof.
  intros [doc [Hfind Hflag]]. destruct r as [now body | now c id0 body | now id0 body];
    cbn [handle].
  - destruct (createIssue_appends getDistance now body db) as [extra Hx].
    exists doc. split; [| exact Hflag].
    unfold findIssueById in *. rewrite Hx. apply find_app_l. exact Hfind.
  - destruct (updateIssue_outcome now c id0 body db) as [-> | [d [Hd Hget]]].
    + exists doc. split; assumption.
    + unfold flaggedIn. rewrite Hget. destruct (Nat.eqb id id0) eqn:E.
      * apply Nat.eqb_eq in E. subst id0.
        rewrite Hfind in Hd. injection Hd as <-.
        eexists. split; [reflexivity |].
        rewrite (proj2 (applyUpdateData_keeps now body doc)). exact Hflag.
      * exists doc. split; assumption.
  - destruct (flagIssue_outcome now id0 body db)
      as [-> | [reason [reporter [d [Hd Hget]]]]].
    + exists doc. split; assumption.
    + unfold flaggedIn. rewrite Hget. destruct (Nat.eqb id id0) eqn:E.
      * eexists. split; [reflexivity |]. destruct d; reflexivity.
      * exists doc. split; assumption.
Qed.

Lemma serve_keeps_flag (getDistance : LatLon -> LatLon -> R)
    (requests : list Request) (db : Db) (id : ObjectId) :
  flaggedIn id db -> flaggedIn id (serve getDistance requests db).
Proof.
  unfold serve. revert db.
  induction requests as [| r rest IH]; intros db H; simpl; [exact H |].
  apply IH. apply handle_keeps_flag. exact H.
Qed.

(** C3 (as stated, refuted).  With the default threshold of 3, the issue is
    already flagged, and gone from the public list, after the first flag
    and after the flags of two distinct flaggers. *)
Lemma two_flags_hide_issue :
  let db1 := serve haversineMetres [PostFlag 1500%Z 1%nat (flagBy 2 "spam")]
                   sampleDb in
  let db2 := serve haversineMetres
                   [PostFlag 1500%Z 1%nat (flagBy 2 "spam");
                    PostFlag 1600%Z 1%nat (flagBy 3 "inappropriate")]
                   sampleDb in
  (2 < autoHideFlagThreshold)%nat
  /\ getIssues noTextSearch emptyQuery sampleDb
     = IssuePage [sampleIssue] (mkPagination 1 10 1)
  /\ flaggedIn 1%nat db1
  /\ flaggedIn 1%nat db2
  /\ getIssues noTextSearch emptyQuery db2 = IssuePage [] (mkPagination 1 10 0).
Proof.
  split; [unfold autoHideFlagThreshold; lia |].
  split; [reflexivity |].
  split; [eexists; split; reflexivity |].
  split; [eexists; split; reflexivity | reflexivity].
Qed.

(** C3 (amended).  There is no counter and no threshold: every accepted
    flag, the first included, sets [isFlagged], which removes the issue
    from the public list; the issue stays flagged under all later requests
    (further flags, status changes, creations), none of which clears it. *)
Theorem flagIssue_hides_at_first_flag (getDistance : LatLon -> LatLon -> R)
    (textSearch : string -> Issue -> bool) (now : Date) (id : ObjectId)
    (body : FlagBody) (db : Db) (doc : Issue) (reason : string)
    (reporter : ObjectId) (later : list Request) (q : ListQuery) :
  findIssueById id db = Some doc ->
  f_reason body = Some reason ->
  reason <> ""%string ->
  (String.length reason <= 500)%nat ->
  f_reportedBy body = Some reporter ->
  exists doc' db',
    flagIssue now id body db
    = (IssueResult 200 "Issue flagged successfully" doc', db')
    /\ isFlagged doc' = true
    /\ findIssueById id db' = Some doc'
    /\ (q_userId q = None -> publicQuery textSearch q doc' = false)
    /\ flaggedIn id (serve getDistance later db').
Proof.
  intros Hfind Hreason Hne Hlen Hrep.
  destruct (flagIssue_accepts now id body db doc reason reporter
              Hfind Hreason Hne Hlen Hrep) as [db' [Hflag [_ Hget]]].
  assert (Hflagged : isFlagged (applyFlag now reason reporter doc) = true)
    by (destruct doc; reflexivity).
  assert (Hlookup : findIssueById id db'
                    = Some (applyFlag now reason reporter doc))
    by (rewrite Hget, Nat.eqb_refl; reflexivity).
  exists (applyFlag now reason reporter doc), db'.
  split; [exact Hflag |]. split; [exact Hflagged |].
  split; [exact Hlookup |]. split.
  - intro Hq. unfold publicQuery. rewrite Hq, Hflagged. reflexivity.
  - apply serve_keeps_flag. eexists. split; [exact Hlookup | exact Hflagged].
Qed.

Lemma flagIssue_hides_at_first_flag_witness :
  isFlagged sampleIssue = false
  /\ exists doc' db',
       flagIssue 1500%Z 1%nat (flagBy 2 "spam") sampleDb
       = (IssueResult 200 "Issue flagged successfully" doc', db')
       /\ isFlagged doc' = true
       /\ publicQuery noTextSearch emptyQuery doc' = false.
Proof.
  split; [reflexivity |].
  destruct (flagIssue_hides_at_first_flag haversineMetres noTextSearch 1500%Z
              1%nat (flagBy 2 "spam") sampleDb sampleIssue "spam" 2%nat []
              emptyQuery eq_refl eq_refl ltac:(discriminate)
              ltac:(cbn [String.length]; lia) eq_refl)
    as [doc' [db' [Hflag [Hset [_ [Hhidden _]]]]]].
  exists doc', db'. split; [exact Hflag |]. split; [exact Hset |].
  apply Hhidden. reflexivity.
Defined.




(** ** Lists of issues: GET /issues and GET /admin/issues *)

Lemma insertByCreatedAt_perm (doc : Issue) (l : list Issue) :
  Permutation (insertByCreatedAt doc l) (doc :: l).
Proof.
  induction l as [| d rest IH]; simpl; [apply Permutation_refl |].
  destruct (Z.leb (createdAt d) (createdAt doc)); [apply Permutation_refl |].
  eapply perm_trans; [apply perm_skip; exact IH | apply perm_swap].
Qed.

Lemma sortCreatedAtDesc_perm (l : list Issue) :
  Permutation (sortCreatedAtDesc l) l.
Proof.
  induction l as [| d rest IH]; simpl; [apply perm_nil |].
  eapply perm_trans; [apply insertByCreatedAt_perm |].
  apply perm_skip. exact IH.
Qed.

Lemma insertByCreatedAt_sorted (doc : Issue) (l : list Issue) :
  StronglySorted newerFirst l ->
  StronglySorted newerFirst (insertByCreatedAt doc l).
Proof.
  induction l as [| d rest IH]; intro Hs; simpl.
  - constructor; constructor.
  - apply StronglySorted_inv in Hs. destruct Hs as [Hrest Hall].
    destruct (Z.leb (createdAt d) (createdAt doc)) eqn:E.
    + apply Z.leb_le in E. constructor.
      * constructor; assumption.
      * constructor; [exact E |].
        eapply Forall_impl; [| exact Hall].
        unfold newerFirst. intros y Hy. lia.
    + apply Z.leb_gt in E. constructor; [apply IH; exact Hrest |].
      apply Forall_forall. intros y Hy.
      apply (Permutation_in _ (insertByCreatedAt_perm doc rest)) in Hy.
      destruct Hy as [<- | Hy].
      * unfold newerFirst. lia.
      * rewrite Forall_forall in Hall. apply Hall. exact Hy.
Qed.

Lemma sortCreatedAtDesc_sorted (l : list Issue) :
  StronglySorted newerFirst (sortCreatedAtDesc l).
Proof.
  induction l as [| d rest IH]; simpl; [constructor |].
  apply insertByCreatedAt_sorted. exact IH.
Qed.

(** The centre and the radius of the query are read and never used. *)
Lemma getIssues_ignores_center (textSearch : string -> Issue -> bool)
    (q : ListQuery) (db : Db) (latitude longitude radius : option R) :
  getIssues textSearch
    (mkListQuery (q_page q) (q_limit q) (q_category q) (q_status q)
       (q_priority q) (q_search q) latitude longitude radius (q_userId q)) db
  = getIssues textSearch q db.
Proof. reflexivity. Qed.

(** C7 (as stated, refuted).  Anyone who passes the id of a reporter gets
    the flagged issues of that reporter from the public list, which takes
    no credentials. *)
Lemma getIssues_returns_flagged_to_anyone :
  isFlagged flaggedIssue = true
  /\ getIssues noTextSearch
       (mkListQuery None None None None None None None None None (Some 1%nat))
       (dbWith flaggedIssue)
     = IssuePage [flaggedIssue] (mkPagination 1 10 1).
Proof. split; reflexivity. Qed.

Lemma skipLimit_window (skip limit : Z) (docs : list Issue) :
  (0 <= skip)%Z -> (0 < limit)%Z ->
  skipLimit skip limit docs
  = Some (firstn (Z.to_nat limit) (skipn (Z.to_nat skip) docs)).
Proof.
  intros Hskip Hlimit. unfold skipLimit.
  replace (Z.ltb skip 0) with false by (symmetry; apply Z.ltb_ge; lia).
  replace (Z.eqb limit 0) with false by (symmetry; apply Z.eqb_neq; lia).
  rewrite Zabs2Nat.abs_nat_nonneg by lia. reflexivity.
Qed.

Lemma orDefault_bound (o : option Z) (d lo : Z) :
  (forall v, o = Some v -> (lo <= v)%Z) -> (lo <= d)%Z ->
  (lo <= orDefault o d)%Z.
Proof.
  intros Hgiven Hd. destruct o as [v |]; cbn [orDefault];
    [apply Hgiven; reflexivity | exact Hd].
Qed.

(** C7 (amended).  For a query that does not give a centre with a radius,
    a page of at least 1 and a positive limit: both lists return the
    [limit] documents after the first [(page - 1) * limit] of an
    arrangement by [createdAt] descending of the matching issues, with
    their number.  The public list leaves flagged issues out unless a
    reporter id is given, and then returns the issues of that reporter,
    flagged or not; the admin list, for admins only, leaves nothing out. *)
Theorem list_pages_sorted_and_filtered (textSearch : string -> Issue -> bool)
    (c : Credentials) (q : ListQuery) (db : Db) :
  q_latitude q = None \/ q_longitude q = None \/ q_radius q = None ->
  (forall p, q_page q = Some p -> (1 <= p)%Z) ->
  (forall l, q_limit q = Some l -> (1 <= l)%Z) ->
  let pageNum := orDefault (q_page q) 1%Z in
  let window (limitNum : Z) (sorted : list Issue) :=
    firstn (Z.to_nat limitNum)
           (skipn (Z.to_nat ((pageNum - 1) * limitNum)) sorted) in
  let shown (d : Issue) :=
    match q_userId q with
    | None => isFlagged d = false
    | Some userId => reportedBy d = userId
    end in
  let unfiltered :=
    q_category q = None /\ q_status q = None /\ q_priority q = None
    /\ q_search q = None in
  let found := filter (publicQuery textSearch q) (issues db) in
  let adminFound := filter (adminQuery textSearch q) (issues db) in
  (exists sorted,
     Permutation sorted found
     /\ StronglySorted newerFirst sorted
     /\ getIssues textSearch q db
        = IssuePage (window (orDefault (q_limit q) 10%Z) sorted)
                    (mkPagination pageNum (orDefault (q_limit q) 10%Z)
                                  (List.length found)))
  /\ (forall d, In d found -> shown d)
  /\ (unfiltered -> forall d, In d found <-> In d (issues db) /\ shown d)
  /\ (adminOnly c = None ->
      exists sorted,
        Permutation sorted adminFound
        /\ StronglySorted newerFirst sorted
        /\ getAdminIssues textSearch c q db
           = IssuePage (window (orDefault (q_limit q) 50%Z) sorted)
                       (mkPagination pageNum (orDefault (q_limit q) 50%Z)
                                     (List.length adminFound)))
  /\ (unfiltered -> forall d, In d adminFound <-> In d (issues db))
  /\ (forall docs pg,
        getAdminIssues textSearch c q db = IssuePage docs pg ->
        adminOnly c = None).
Proof.
  intros _ Hpage Hlimit pageNum window shown unfiltered found adminFound.
  assert (Hp : (1 <= pageNum)%Z)
    by (apply orDefault_bound; [exact Hpage | lia]).
  assert (Hshown : forall d, publicQuery textSearch q d = true -> shown d).
  { intros d Hd. unfold publicQuery in Hd. subst shown. cbv beta.
    destruct (q_userId q) as [userId |].
    - destruct (Nat.eqb (reportedBy d) userId) eqn:E; [| discriminate Hd].
      apply Nat.eqb_eq. exact E.
    - destruct (isFlagged d); [discriminate Hd | reflexivity]. }
  split; [| split; [| split; [| split; [| split]]]].
  - exists (sortCreatedAtDesc found).
    split; [apply sortCreatedAtDesc_perm |].
    split; [apply sortCreatedAtDesc_sorted |].
    assert (Hl : (1 <= orDefault (q_limit q) 10)%Z)
      by (apply orDefault_bound; [exact Hlimit | lia]).
    unfold getIssues. fold found. fold pageNum.
    rewrite skipLimit_window by nia. reflexivity.
  - intros d Hd. apply filter_In in Hd. apply Hshown. exact (proj2 Hd).
  - intros [Hc [Hs [Hpr Hse]]] d. subst found. rewrite filter_In.
    split.
    + intros [Hin Hd]. split; [exact Hin | apply Hshown; exact Hd].
    + intros [Hin Hd]. split; [exact Hin |].
      unfold publicQuery. rewrite Hc, Hs, Hpr, Hse.
      subst shown. cbv beta in Hd.
      destruct (q_userId q) as [userId |].
      * rewrite Hd, Nat.eqb_refl. reflexivity.
      * rewrite Hd. reflexivity.
  - intro Hadmin. exists (sortCreatedAtDesc adminFound).
    split; [apply sortCreatedAtDesc_perm |].
    split; [apply sortCreatedAtDesc_sorted |].
    assert (Hl : (1 <= orDefault (q_limit q) 50)%Z)
      by (apply orDefault_bound; [exact Hlimit | lia]).
    unfold getAdminIssues. rewrite Hadmin. fold adminFound. fold pageNum.
    rewrite skipLimit_window by nia. reflexivity.
  - intros [Hc [Hs [Hpr Hse]]] d. subst adminFound. rewrite filter_In.
    unfold adminQuery. rewrite Hc, Hs, Hpr, Hse.
    split; [intros [Hin _]; exact Hin | intro Hin; split; [exact Hin |]].
    reflexivity.
  - intros docs pg. unfold getAdminIssues.
    destruct (adminOnly c) as [r |] eqn:Hadmin; [| reflexivity].
    destruct (adminOnly_failure c r Hadmin) as [k [m ->]].
    intro H. discriminate H.
Qed.

Lemma list_pages_sorted_and_filtered_witness :
  (exists sorted,
     Permutation sorted [sampleIssue]
     /\ getIssues noTextSearch emptyQuery sampleDb
        = IssuePage (firstn 10 (skipn 0 sorted)) (mkPagination 1 10 1))
  /\ (In flaggedIssue
         (filter (adminQuery noTextSearch emptyQuery)
                 (issues (dbWith flaggedIssue)))).
Proof.
  destruct (list_pages_sorted_and_filtered noTextSearch adminCredentials
              emptyQuery sampleDb)
    as [[sorted [Hperm [_ Hget]]] _].
  { left. reflexivity. }
  { intros p H. discriminate H. }
  { intros l H. discriminate H. }
  destruct (list_pages_sorted_and_filtered noTextSearch adminCredentials
              emptyQuery (dbWith flaggedIssue))
    as [_ [_ [_ [_ [Hall _]]]]].
  { left. reflexivity. }
  { intros p H. discriminate H. }
  { intros l H. discriminate H. }
  split.
  - exists sorted. split; [exact Hperm | exact Hget].
  - apply Hall; [repeat split; reflexivity | left; reflexivity].
Defined.

(* ================================================================= *)
(** * Further properties *)

(** ** Geolocation: boxes, centres and localities *)

Lemma leR_elim (x y : R) : leR x y = true -> x <= y.
Proof.
  unfold leR. destruct (Rle_dec x y); [trivial | discriminate].
Qed.

Lemma isValidCoordinates_iff (lat lng : R) :
  isValidCoordinates lat lng = true
  <-> (-90 <= lat <= 90 /\ -180 <= lng <= 180).
Proof.
  unfold isValidCoordinates. split.
  - intro H. repeat (apply andb_prop in H; destruct H as [H ?]).
    repeat split; apply leR_elim; assumption.
  - intros [[H1 H2] [H3 H4]]. rewrite !leR_true by assumption. reflexivity.
Qed.

(** X1.  Below the poles and for radii [0 <= r1 <= r2], the box of [r1]
    holds its centre, is centred on it, and lies inside the box of [r2]. *)
Theorem generateBoundingBox_nested (center : Point) (r1 r2 : R) :
  -90 < latitude center < 90 ->
  0 <= r1 <= r2 ->
  let inner := generateBoundingBox center r1 in
  let outer := generateBoundingBox center r2 in
  (south inner <= latitude center <= north inner
   /\ west inner <= longitude center <= east inner)
  /\ (north inner - latitude center = latitude center - south inner
      /\ east inner - longitude center = longitude center - west inner)
  /\ (south outer <= south inner /\ north inner <= north outer
      /\ west outer <= west inner /\ east inner <= east outer).
Proof.
  intros Hlat [Hr1 Hr12] inner outer. subst inner outer.
  unfold generateBoundingBox; cbn [north south east west].
  assert (Hk : 0 < latDegreesPerKm) by (unfold latDegreesPerKm; lra).
  assert (Hg : 0 < lngDegreesPerKm center).
  { unfold lngDegreesPerKm. apply Rdiv_lt_0_compat; [lra |].
    apply lngDivisor_pos. exact Hlat. }
  assert (0 <= r1 * latDegreesPerKm) by nra.
  assert (0 <= r1 * lngDegreesPerKm center) by nra.
  assert (r1 * latDegreesPerKm <= r2 * latDegreesPerKm) by nra.
  assert (r1 * lngDegreesPerKm center <= r2 * lngDegreesPerKm center) by nra.
  repeat split; lra.
Qed.

Lemma generateBoundingBox_nested_witness :
  let inner := generateBoundingBox (mkPoint 40 (-74)) 1 in
  let outer := generateBoundingBox (mkPoint 40 (-74)) 5 in
  south inner <= 40 <= north inner /\ east inner <= east outer.
Proof.
  assert (Hlat : -90 < latitude (mkPoint 40 (-74)) < 90) by (simpl; lra).
  assert (Hr : 0 <= 1 <= 5) by lra.
  destruct (generateBoundingBox_nested (mkPoint 40 (-74)) 1 5 Hlat Hr)
    as [[Hc _] [_ [_ [_ [_ He]]]]].
  split; [exact Hc | exact He].
Defined.

Lemma fold_left_sum_bounds (f : GeoLocation -> R) (lo hi : R)
    (locations : list GeoLocation) (acc : R) :
  Forall (fun l => lo <= f l <= hi) locations ->
  acc + lo * INR (List.length locations)
  <= fold_left (fun total l => total + f l) locations acc
  <= acc + hi * INR (List.length locations).
Proof.
  revert acc. induction locations as [| l rest IH]; intros acc Hall.
  - simpl. lra.
  - apply Forall_cons_iff in Hall. destruct Hall as [Hl Hrest].
    specialize (IH (acc + f l) Hrest).
    change (fold_left (fun total l0 => total + f l0) (l :: rest) acc)
      with (fold_left (fun total l0 => total + f l0) rest (acc + f l)).
    change (List.length (l :: rest)) with (S (List.length rest)).
    rewrite S_INR. nra.
Qed.

(** X2.  [findCenterPoint] fails on the empty list, returns the only
    location of a singleton as it is, and from valid coordinates always
    computes valid coordinates. *)
Theorem findCenterPoint_valid (locations : list GeoLocation) :
  Forall (fun l : GeoLocation =>
            isValidCoordinates (latitude l) (longitude l) = true)
         locations ->
  match locations with
  | [] => findCenterPoint locations
          = inl "Cannot find center of empty locations array"
  | [only] => findCenterPoint locations = inr only
  | _ =>
      exists c, findCenterPoint locations = inr c
                /\ isValidCoordinates (latitude c) (longitude c) = true
                /\ geoAddress c = None
  end.
Proof.
  intro Hall.
  destruct locations as [| l1 [| l2 rest]]; try reflexivity.
  eexists. split; [reflexivity |]. split; [| reflexivity].
  set (locs := l1 :: l2 :: rest) in *.
  assert (Hn : 0 < INR (List.length locs)) by (apply lt_0_INR; simpl; lia).
  assert (Hlat : Forall (fun l : GeoLocation => -90 <= latitude l <= 90) locs).
  { eapply Forall_impl; [| exact Hall]. intros l Hl.
    apply isValidCoordinates_iff in Hl. tauto. }
  assert (Hlng : Forall (fun l : GeoLocation => -180 <= longitude l <= 180)
                        locs).
  { eapply Forall_impl; [| exact Hall]. intros l Hl.
    apply isValidCoordinates_iff in Hl. tauto. }
  pose proof (fold_left_sum_bounds (fun l : GeoLocation => latitude l)
                _ _ locs 0 Hlat)
    as [Hlat1 Hlat2].
  pose proof (fold_left_sum_bounds (fun l : GeoLocation => longitude l)
                _ _ locs 0 Hlng)
    as [Hlng1 Hlng2].
  apply isValidCoordinates_iff. cbn [latitude longitude geoPoint].
  repeat split.
  - apply Rmult_le_reg_r with (INR (List.length locs)); [exact Hn |].
    unfold Rdiv. rewrite Rmult_assoc, Rinv_l by lra. lra.
  - apply Rmult_le_reg_r with (INR (List.length locs)); [exact Hn |].
    unfold Rdiv. rewrite Rmult_assoc, Rinv_l by lra. lra.
  - apply Rmult_le_reg_r with (INR (List.length locs)); [exact Hn |].
    unfold Rdiv. rewrite Rmult_assoc, Rinv_l by lra. lra.
  - apply Rmult_le_reg_r with (INR (List.length locs)); [exact Hn |].
    unfold Rdiv. rewrite Rmult_assoc, Rinv_l by lra. lra.
Qed.

Lemma findCenterPoint_valid_witness :
  exists c,
    findCenterPoint [mkGeoLocation (mkPoint 40 (-74)) None None;
                     mkGeoLocation (mkPoint 42 (-72)) None None] = inr c
    /\ isValidCoordinates (latitude c) (longitude c) = true.
Proof.
  assert (H : Forall
                (fun l : GeoLocation =>
                   isValidCoordinates (latitude l) (longitude l) = true)
                [mkGeoLocation (mkPoint 40 (-74)) None None;
                 mkGeoLocation (mkPoint 42 (-72)) None None]).
  { repeat constructor; apply isValidCoordinates_iff; simpl; lra. }
  destruct (findCenterPoint_valid _ H) as [c [Hc [Hv _]]].
  exists c. split; [exact Hc | exact Hv].
Defined.

Lemma to_int_not_nil (z : Z) :
  Z.to_int z <> Decimal.Pos Decimal.Nil /\ Z.to_int z <> Decimal.Neg Decimal.Nil.
Proof.
  destruct z as [| p | p]; simpl; split; try discriminate;
    intro H; injection H as H;
    pose proof (Unsigned.to_uint_nonnil p) as Hp; contradiction.
Qed.

Lemma showInteger_inj (a b : Z) : showInteger a = showInteger b -> a = b.
Proof.
  unfold showInteger. intro H.
  destruct (to_int_not_nil a) as [Ha1 Ha2].
  destruct (to_int_not_nil b) as [Hb1 Hb2].
  pose proof (NilZero.isi (Z.to_int a) Ha1 Ha2) as Ia.
  pose proof (NilZero.isi (Z.to_int b) Hb1 Hb2) as Ib.
  rewrite H in Ia. rewrite Ia in Ib. injection Ib as Hab.
  rewrite <- (DecimalZ.of_to a), <- (DecimalZ.of_to b), Hab. reflexivity.
Qed.

Lemma string_of_uint_no_underscore (d : Decimal.uint) :
  containsChar "_" (NilEmpty.string_of_uint d) = false.
Proof. induction d; simpl; trivial. Qed.

Lemma showInteger_no_underscore (z : Z) :
  containsChar "_" (showInteger z) = false.
Proof.
  unfold showInteger, NilZero.string_of_int, NilZero.string_of_uint.
  destruct (Z.to_int z) as [d | d]; destruct d; simpl; trivial;
    apply string_of_uint_no_underscore.
Qed.

Lemma append_separator_inj (a b c d : string) :
  containsChar "_" a = false ->
  containsChar "_" c = false ->
  (a ++ "_" ++ b)%string = (c ++ "_" ++ d)%string ->
  a = c /\ b = d.
Proof.
  revert c. induction a as [| x a IH]; intros [| y c] Ha Hc H; simpl in *.
  - injection H as H. split; [reflexivity | exact H].
  - injection H as Hy _. subst y. simpl in Hc. discriminate.
  - injection H as Hx _. subst x. simpl in Ha. discriminate.
  - injection H as Hxy H. subst y.
    apply orb_false_elim in Ha, Hc.
    destruct (IH c (proj2 Ha) (proj2 Hc) H) as [-> ->]. split; reflexivity.
Qed.

(** X3.  The locality names the pair of grid numbers: two points of
    valid coordinates get the same locality exactly when the floors of
    their latitudes times 100 agree and those of their longitudes do,
    whatever the product of doubles returns. *)
Theorem generateLocalityFromCoordinates_cell (times : R -> R -> R)
    (lat1 lng1 lat2 lng2 : R) :
  isValidCoordinates lat1 lng1 = true ->
  isValidCoordinates lat2 lng2 = true ->
  generateLocalityFromCoordinates times lat1 lng1
  = generateLocalityFromCoordinates times lat2 lng2
  <-> (Int_part (times lat1 100) = Int_part (times lat2 100)
       /\ Int_part (times lng1 100) = Int_part (times lng2 100)).
Proof.
  intros _ _. unfold generateLocalityFromCoordinates. split.
  - intro H. cbn [append] in H.
    repeat (injection H as H).
    apply append_separator_inj in H;
      try apply showInteger_no_underscore.
    destruct H as [H1 H2].
    split; apply showInteger_inj; assumption.
  - intros [-> ->]. reflexivity.
Qed.

Lemma generateLocalityFromCoordinates_cell_witness :
  generateLocalityFromCoordinates Rmult 40.7128 (-74.0060)
  = generateLocalityFromCoordinates Rmult 40.7199 (-74.0001).
Proof.
  assert (Hv1 : isValidCoordinates 40.7128 (-74.0060) = true)
    by (apply isValidCoordinates_iff; lra).
  assert (Hv2 : isValidCoordinates 40.7199 (-74.0001) = true)
    by (apply isValidCoordinates_iff; lra).
  apply (generateLocalityFromCoordinates_cell Rmult _ _ _ _ Hv1 Hv2).
  split.
  - rewrite <- (Int_part_spec (40.7128 * 100) 4071) by lra.
    rewrite <- (Int_part_spec (40.7199 * 100) 4071) by lra. reflexivity.
  - rewrite <- (Int_part_spec (-74.0060 * 100) (-7401)) by lra.
    rewrite <- (Int_part_spec (-74.0001 * 100) (-7401)) by lra. reflexivity.
Defined.

(** ** The Issue model: votes, nearby issues and the save middleware *)

Lemma purge_idempotent (u : ObjectId) (l : list ObjectId) :
  filter (fun id => negb (Nat.eqb id u)) (filter (fun id => negb (Nat.eqb id u)) l)
  = filter (fun id => negb (Nat.eqb id u)) l.
Proof.
  induction l as [| x l IH]; simpl; [reflexivity |].
  destruct (negb (Nat.eqb x u)) eqn:E; simpl; rewrite ?E, IH; reflexivity.
Qed.

Lemma purge_pushed (u : ObjectId) (l : list ObjectId) :
  filter (fun id => negb (Nat.eqb id u)) (l ++ [u])
  = filter (fun id => negb (Nat.eqb id u)) l.
Proof.
  rewrite filter_app. simpl. rewrite Nat.eqb_refl. simpl. apply app_nil_r.
Qed.

Lemma toggleVote_votes (this : Issue) (userId : ObjectId)
    (voteType : VoteType) :
  let purged := filter (fun id => negb (Nat.eqb id userId)) in
  upvotes (toggleVote this userId voteType)
  = match voteType with
    | upvote => (purged (upvotes this) ++ [userId])%list
    | downvote => purged (upvotes this)
    end
  /\ downvotes (toggleVote this userId voteType)
     = match voteType with
       | upvote => purged (downvotes this)
       | downvote => (purged (downvotes this) ++ [userId])%list
       end.
Proof. destruct this, voteType; split; reflexivity. Qed.

(** X4.  Voting the same way twice is voting once, as far as the votes
    go: on any document that holds the vote arrays of the first call,
    whatever [save] did to the rest of it, the second call leaves both
    arrays as they are. *)
Theorem toggleVote_idempotent (this saved : Issue) (userId : ObjectId)
    (voteType : VoteType) :
  upvotes saved = upvotes (toggleVote this userId voteType) ->
  downvotes saved = downvotes (toggleVote this userId voteType) ->
  upvotes (toggleVote saved userId voteType) = upvotes saved
  /\ downvotes (toggleVote saved userId voteType) = downvotes saved.
Proof.
  intros Hup Hdown.
  destruct (toggleVote_votes this userId voteType) as [Hu Hd].
  destruct (toggleVote_votes saved userId voteType) as [Hu' Hd'].
  cbv zeta in *. rewrite Hu', Hd', Hup, Hdown, Hu, Hd.
  destruct voteType;
    rewrite ?purge_pushed, ?purge_idempotent; split; reflexivity.
Qed.

Lemma toggleVote_idempotent_witness :
  upvotes (toggleVote (set_updatedAt 5000 (toggleVote sampleIssue 7 upvote))
                      7 upvote)
  = [7%nat].
Proof.
  exact (proj1 (toggleVote_idempotent sampleIssue
                  (set_updatedAt 5000 (toggleVote sampleIssue 7 upvote))
                  7%nat upvote eq_refl eq_refl)).
Defined.

Lemma purge_length (u : ObjectId) (l : list ObjectId) :
  (Z.of_nat (List.length (filter (fun id => negb (Nat.eqb id u)) l))
   = Z.of_nat (List.length l) - Z.of_nat (count_occ Nat.eq_dec l u))%Z.
Proof.
  induction l as [| x l IH]; [reflexivity |].
  cbn [filter count_occ List.length].
  destruct (Nat.eq_dec x u) as [-> | Hne].
  - rewrite Nat.eqb_refl. cbn [negb]. lia.
  - apply Nat.eqb_neq in Hne. rewrite Hne. cbn [negb List.length]. lia.
Qed.

Lemma NoDup_count_occ_le (u : ObjectId) (l : list ObjectId) :
  NoDup l -> (count_occ Nat.eq_dec l u <= 1)%nat.
Proof.
  intro H. apply (proj1 (NoDup_count_occ Nat.eq_dec l) H).
Qed.

(** X5.  [netVotes] after a vote: the earlier entries of the user are
    taken out and one is added on the side of the vote.  On a well-formed
    record a first vote moves the score by one, a change of side by two,
    and a repeated vote not at all. *)
Theorem toggleVote_netVotes (this : Issue) (userId : ObjectId)
    (voteType : VoteType) :
  let sign := match voteType with upvote => 1%Z | downvote => (-1)%Z end in
  let ups := Z.of_nat (count_occ Nat.eq_dec (upvotes this) userId) in
  let downs := Z.of_nat (count_occ Nat.eq_dec (downvotes this) userId) in
  let voted := toggleVote this userId voteType in
  netVotes voted = (netVotes this - ups + downs + sign)%Z
  /\ (votesWellFormed this ->
      match hasUserVoted this userId with
      | None => netVotes voted = (netVotes this + sign)%Z
      | Some earlier =>
          if match earlier, voteType with
             | upvote, upvote | downvote, downvote => true
             | _, _ => false
             end
          then netVotes voted = netVotes this
          else netVotes voted = (netVotes this + 2 * sign)%Z
      end).
Proof.
  intros sign ups downs voted.
  assert (Hgen : netVotes voted = (netVotes this - ups + downs + sign)%Z).
  { subst sign ups downs voted.
    destruct this, voteType; unfold toggleVote, netVotes, upvoteCount,
      downvoteCount; simpl;
      rewrite ?length_app, ?Nat2Z.inj_add, !purge_length; simpl; lia. }
  split; [exact Hgen |].
  intros [Hup [Hdown Hdisj]]. rewrite Hgen. clear Hgen.
  pose proof (NoDup_count_occ_le userId _ Hup) as Hu.
  pose proof (NoDup_count_occ_le userId _ Hdown) as Hd.
  unfold hasUserVoted. rewrite !existsb_count_occ.
  subst ups downs sign.
  destruct (count_occ Nat.eq_dec (upvotes this) userId) as [| [| n]] eqn:Eu;
    [| | lia];
    destruct (count_occ Nat.eq_dec (downvotes this) userId) as [| [| m]] eqn:Ed;
    try lia; simpl; destruct voteType; try lia.
  - exfalso. apply (Hdisj userId).
    + apply (count_occ_In Nat.eq_dec). lia.
    + apply (count_occ_In Nat.eq_dec). lia.
  - exfalso. apply (Hdisj userId).
    + apply (count_occ_In Nat.eq_dec). lia.
    + apply (count_occ_In Nat.eq_dec). lia.
Qed.

Lemma toggleVote_netVotes_witness :
  votesWellFormed sampleIssue
  /\ netVotes (toggleVote sampleIssue 2 upvote) = (netVotes sampleIssue + 1)%Z
  /\ netVotes (toggleVote (toggleVote sampleIssue 2 upvote) 2 downvote)
     = (netVotes (toggleVote sampleIssue 2 upvote) + 2 * -1)%Z.
Proof.
  assert (Hwf : votesWellFormed sampleIssue).
  { repeat split; try constructor. intros u H. destruct H. }
  split; [exact Hwf |].
  destruct (toggleVote_netVotes sampleIssue 2 upvote) as [_ H1].
  destruct (toggleVote_netVotes (toggleVote sampleIssue 2 upvote) 2 downvote)
    as [_ H2].
  split; [exact (H1 Hwf) |].
  apply H2. unfold votesWellFormed. cbn.
  split; [constructor; [intros [] | constructor] |].
  split; [constructor |]. intros u _ [].
Defined.

Lemma In_purged (u x : ObjectId) (l : list ObjectId) :
  In x (filter (fun id => negb (Nat.eqb id u)) l) <-> In x l /\ x <> u.
Proof.
  rewrite filter_In. split; intros [H1 H2]; split; trivial.
  - intros ->. rewrite Nat.eqb_refl in H2. discriminate.
  - apply Nat.eqb_neq in H2. rewrite H2. reflexivity.
Qed.

Lemma NoDup_purged_pushed (u : ObjectId) (l : list ObjectId) :
  NoDup l -> NoDup (filter (fun id => negb (Nat.eqb id u)) l ++ [u]).
Proof.
  intro H. apply NoDup_app.
  - apply NoDup_filter. exact H.
  - constructor; [intros [] | constructor].
  - intros x Hx [<- | []]. apply In_purged in Hx. destruct Hx as [_ Hx].
    apply Hx. reflexivity.
Qed.

(** X6.  [toggleVote] keeps a vote record well formed: no user twice in a
    list, no user in both lists. *)
Theorem toggleVote_wellFormed (this : Issue) (userId : ObjectId)
    (voteType : VoteType) :
  votesWellFormed this ->
  votesWellFormed (toggleVote this userId voteType).
Proof.
  intros [Hup [Hdown Hdisj]].
  destruct this, voteType; unfold votesWellFormed, toggleVote in *;
    simpl in *.
  - split; [apply NoDup_purged_pushed; exact Hup |].
    split; [apply NoDup_filter; exact Hdown |].
    intros x Hx Hd. apply In_purged in Hd. destruct Hd as [Hd Hne].
    apply in_app_or in Hx. destruct Hx as [Hx | [<- | []]].
    + apply In_purged in Hx. apply (Hdisj x); tauto.
    + apply Hne. reflexivity.
  - split; [apply NoDup_filter; exact Hup |].
    split; [apply NoDup_purged_pushed; exact Hdown |].
    intros x Hx Hd. apply In_purged in Hx. destruct Hx as [Hx Hne].
    apply in_app_or in Hd. destruct Hd as [Hd | [<- | []]].
    + apply In_purged in Hd. apply (Hdisj x); tauto.
    + apply Hne. reflexivity.
Qed.

Lemma toggleVote_wellFormed_witness :
  votesWellFormed (toggleVote (toggleVote sampleIssue 2 upvote) 3 downvote).
Proof.
  apply toggleVote_wellFormed, toggleVote_wellFormed.
  repeat split; try constructor. intros u H. destruct H.
Defined.

Lemma lngDegreesPerKm_lower (center : Point) :
  -90 < latitude center < 90 -> 1 / 111 <= lngDegreesPerKm center.
Proof.
  intro Hlat. pose proof (lngDivisor_pos center Hlat) as Hpos.
  assert (Hle : lngDivisor center <= 111).
  { unfold lngDivisor.
    pose proof (COS_bound (latitude center * PI / 180)) as [_ Hc]. lra. }
  unfold lngDegreesPerKm, Rdiv. rewrite !Rmult_1_l.
  apply Rinv_le_contravar; assumption.
Qed.

(** X7.  For a centre below the poles and a radius that is not negative,
    [findNearby] returns only public, unflagged issues of the collection
    that lie inside the box of [generateBoundingBox] for the same centre
    and radius, and it does return every public, unflagged issue located
    at the centre itself. *)
Theorem findNearby_inside_box (centerLatitude centerLongitude : R)
    (radiusKm : option R) (coll : list Issue) :
  -90 < centerLatitude < 90 ->
  0 <= orDefault radiusKm 5 ->
  let box := generateBoundingBox (mkPoint centerLatitude centerLongitude)
                                 (orDefault radiusKm 5) in
  (forall doc,
     In doc (findNearby centerLatitude centerLongitude radiusKm coll) ->
     In doc coll /\ isPublic doc = true /\ isFlagged doc = false
     /\ south box <= latitude (location doc) <= north box
     /\ west box <= longitude (location doc) <= east box)
  /\ (forall doc,
        In doc coll -> isPublic doc = true -> isFlagged doc = false ->
        latitude (location doc) = centerLatitude ->
        longitude (location doc) = centerLongitude ->
        In doc (findNearby centerLatitude centerLongitude radiusKm coll)).
Proof.
  intros Hlat Hr box. subst box.
  set (r := orDefault radiusKm 5) in *.
  pose proof (lngDegreesPerKm_lower (mkPoint centerLatitude centerLongitude)
                Hlat) as Hlng.
  split.
  - intros doc Hdoc. unfold findNearby in Hdoc. fold r in Hdoc.
    apply filter_In in Hdoc. destruct Hdoc as [Hin Hq].
    repeat (apply andb_prop in Hq; destruct Hq as [Hq ?]).
    apply leR_elim in Hq.
    repeat match goal with H : leR _ _ = true |- _ => apply leR_elim in H end.
    repeat match goal with
           | H : Bool.eqb _ _ = true |- _ => apply Bool.eqb_prop in H
           end.
    unfold generateBoundingBox, latDegreesPerKm.
    cbn [north south east west latitude longitude].
    assert (r / 111 <= r * lngDegreesPerKm
                             (mkPoint centerLatitude centerLongitude)) by nra.
    repeat split; try assumption; lra.
  - intros doc Hin Hpub Hflag Hla Hlo. unfold findNearby. fold r.
    apply filter_In. split; [exact Hin |].
    rewrite Hpub, Hflag, Hla, Hlo.
    assert (0 <= r / 111) by lra.
    rewrite !leR_true by lra. reflexivity.
Qed.

Lemma findNearby_inside_box_witness :
  In sampleIssue (findNearby 40.7128 (-74.0060) None [sampleIssue]).
Proof.
  assert (Hlat : -90 < 40.7128 < 90) by lra.
  assert (Hr : 0 <= orDefault None 5) by (simpl; lra).
  destruct (findNearby_inside_box 40.7128 (-74.0060) None [sampleIssue]
              Hlat Hr) as [_ Hfound].
  apply Hfound; try reflexivity. left. reflexivity.
Defined.

(** The document the middleware leaves, field by field. *)
Lemma preSave_fields (modStatus modIsFlagged : bool) (now : Date) (doc : Issue) :
  preSave modStatus modIsFlagged now doc
  = set_flaggedBy
      (if (modIsFlagged && negb (isFlagged doc))%bool then None
       else flaggedBy doc)
      (set_flaggedReason
         (if (modIsFlagged && negb (isFlagged doc))%bool then None
          else flaggedReason doc)
         (set_flaggedAt
            (if modIsFlagged
             then if isFlagged doc
                  then Some (orDefault (flaggedAt doc) now) else None
             else flaggedAt doc)
            (set_actualResolutionDate
               (if modStatus
                then if String.eqb (status doc) "resolved"
                     then Some (orDefault (actualResolutionDate doc) now)
                     else None
                else actualResolutionDate doc)
               doc))).
Proof.
  destruct doc. unfold preSave.
  cbn [status actualResolutionDate isFlagged flaggedAt flaggedReason
       flaggedBy].
  destruct (String.eqb status0 "resolved") eqn:E;
    destruct modStatus, modIsFlagged, actualResolutionDate0, isFlagged0,
      flaggedAt0;
    cbn [status actualResolutionDate isFlagged flaggedAt flaggedReason
         flaggedBy set_actualResolutionDate set_flaggedAt set_flaggedReason
         set_flaggedBy andb negb isSome orDefault];
    rewrite ?E;
    cbn [status actualResolutionDate isFlagged flaggedAt flaggedReason
         flaggedBy set_actualResolutionDate set_flaggedAt set_flaggedReason
         set_flaggedBy andb negb isSome orDefault];
    rewrite ?E;
    cbn [status actualResolutionDate isFlagged flaggedAt flaggedReason
         flaggedBy set_actualResolutionDate set_flaggedAt set_flaggedReason
         set_flaggedBy andb negb isSome orDefault];
    reflexivity.
Qed.

(** X8.  The save middleware settles a document: with the status and the
    flag marked as modified, the resolution date is present exactly when
    the status is [resolved], a flagged document has a flag date and an
    unflagged one no flag data; status and flag are not changed; and a
    second run, at any later time, changes nothing more. *)
Theorem preSave_settles (modStatus modIsFlagged : bool) (now later : Date)
    (doc : Issue) :
  let saved := preSave modStatus modIsFlagged now doc in
  preSave modStatus modIsFlagged later saved = saved
  /\ status saved = status doc
  /\ isFlagged saved = isFlagged doc
  /\ (modStatus = true ->
      isSome (actualResolutionDate saved) = String.eqb (status doc) "resolved")
  /\ (modIsFlagged = true ->
      if isFlagged doc then isSome (flaggedAt saved) = true
      else flaggedAt saved = None /\ flaggedReason saved = None
           /\ flaggedBy saved = None).
Proof.
  intro saved. subst saved.
  rewrite (preSave_fields modStatus modIsFlagged now doc).
  rewrite preSave_fields.
  destruct doc.
  cbn [status actualResolutionDate isFlagged flaggedAt flaggedReason
       flaggedBy set_actualResolutionDate set_flaggedAt set_flaggedReason
       set_flaggedBy].
  destruct (String.eqb status0 "resolved") eqn:E;
    destruct modStatus, modIsFlagged, actualResolutionDate0, isFlagged0,
      flaggedAt0;
    cbn [andb negb isSome orDefault];
    repeat split;
    first [ reflexivity
          | congruence
          | intro H; discriminate H
          | intros _; repeat split; reflexivity ].
Qed.

Lemma preSave_settles_witness :
  isSome (actualResolutionDate
            (preSave true true 4000 (set_status "resolved" flaggedIssue)))
  = true.
Proof.
  destruct (preSave_settles true true 4000 5000
              (set_status "resolved" flaggedIssue)) as [_ [_ [_ [H _]]]].
  rewrite (H eq_refl). reflexivity.
Defined.

(** ** The server: the admin gate, reading back, deleting *)

Lemma adminOnly_passes (c : Credentials) :
  adminOnly c = None
  <-> exists user, c = Verified user /\ jwt_role user = "admin"%string.
Proof.
  unfold adminOnly, authenticateToken, requireAdmin. split.
  - destruct c as [| | user]; try discriminate.
    destruct (String.eqb (jwt_role user) "admin") eqn:E; [| discriminate].
    intros _. exists user. split; [reflexivity |].
    apply String.eqb_eq. exact E.
  - intros [user [-> Hrole]]. rewrite Hrole. reflexivity.
Qed.

(** X9.  The admin endpoints are closed to everyone but a verified admin
    token: without a token they answer 401, with a bad token or a token of
    another role 403, and the database is left as it was. *)
Theorem admin_endpoints_closed (textSearch : string -> Issue -> bool)
    (c : Credentials) (now : Date) (id : ObjectId) (body : UpdateBody)
    (isBanned : bool) (q : ListQuery) (db : Db) :
  (forall user, c = Verified user -> jwt_role user <> "admin"%string) ->
  exists message,
    let refusal := Failure (match c with NoToken => 401 | _ => 403 end)
                           message in
    updateIssue now c id body db = (refusal, db)
    /\ deleteIssue c id db = (inl refusal, db)
    /\ banUser c id isBanned db = (inl refusal, db)
    /\ getAdminIssues textSearch c q db = refusal.
Proof.
  intro Hnot.
  unfold updateIssue, deleteIssue, banUser, getAdminIssues, adminOnly,
    authenticateToken, requireAdmin.
  destruct c as [| | user].
  - eexists. repeat split; reflexivity.
  - eexists. repeat split; reflexivity.
  - specialize (Hnot user eq_refl). apply String.eqb_neq in Hnot.
    rewrite Hnot. eexists. repeat split; reflexivity.
Qed.

Lemma admin_endpoints_closed_witness :
  exists message,
    updateIssue 2000 NoToken 1 (statusOnly "closed") sampleDb
    = (Failure 401 message, sampleDb)
    /\ deleteIssue NoToken 1 sampleDb = (inl (Failure 401 message), sampleDb).
Proof.
  destruct (admin_endpoints_closed noTextSearch NoToken 2000 1
              (statusOnly "closed") true emptyQuery sampleDb)
    as [message [H1 [H2 _]]].
  - intros user H. discriminate H.
  - exists message. split; [exact H1 | exact H2].
Defined.

(** What a successful flag did. *)
Lemma flagIssue_success (now : Date) (id : ObjectId) (body : FlagBody)
    (db : Db) (code : nat) (message : string) (doc' : Issue) (db' : Db) :
  flagIssue now id body db = (IssueResult code message doc', db') ->
  exists doc reason reporter,
    findIssueById id db = Some doc
    /\ doc' = applyFlag now reason reporter doc
    /\ users db' = users db
    /\ forall id',
         findIssueById id' db'
         = if Nat.eqb id' id then Some doc' else findIssueById id' db.
Proof.
  unfold flagIssue, findIssueById.
  destruct (f_reason body) as [reason |]; [| intro H; discriminate H].
  destruct (f_reportedBy body) as [reporter |]; [| intro H; discriminate H].
  destruct (String.eqb reason ""); [intro H; discriminate H |].
  destruct (negb _); [intro H; discriminate H |].
  pose proof (findByIdAndUpdate_lookup id (applyFlag now reason reporter)
                (issues db) (applyFlag_id now reason reporter)) as Hlook.
  destruct (find _ (issues db)) as [doc |].
  - destruct Hlook as [coll' [Hupd Hget]]. rewrite Hupd.
    intro H. injection H as _ _ Hdoc Hdb. subst doc' db'.
    exists doc, reason, reporter.
    split; [reflexivity |]. split; [reflexivity |]. split; [reflexivity |].
    intro id'. simpl. apply Hget.
  - rewrite Hlook. intro H; discriminate H.
Qed.

(** X10.  Reading back: after a successful status update or flag, the GET
    of the issue returns the document of the response, and the GET of every
    other issue returns what it returned before; an unknown id is a 404. *)
Theorem getIssue_reads_back (now : Date) (c : Credentials) (id : ObjectId)
    (update : UpdateBody) (flag : FlagBody) (db : Db) :
  (forall code message doc' db',
     updateIssue now c id update db = (IssueResult code message doc', db') ->
     getIssue id db' = IssueResult 200 "" doc'
     /\ forall other, other <> id -> getIssue other db' = getIssue other db)
  /\ (forall code message doc' db',
        flagIssue now id flag db = (IssueResult code message doc', db') ->
        getIssue id db' = IssueResult 200 "" doc'
        /\ forall other, other <> id -> getIssue other db' = getIssue other db)
  /\ (findIssueById id db = None ->
      getIssue id db = Failure 404 "Issue not found").
Proof.
  split; [| split].
  - intros code message doc' db' H.
    destruct (updateIssue_success _ _ _ _ _ _ _ _ _ H)
      as [_ [doc [_ [_ Hget]]]].
    unfold getIssue. split.
    + rewrite Hget, Nat.eqb_refl. reflexivity.
    + intros other Hne. rewrite Hget.
      apply Nat.eqb_neq in Hne. rewrite Hne. reflexivity.
  - intros code message doc' db' H.
    destruct (flagIssue_success _ _ _ _ _ _ _ _ H)
      as [doc [reason [reporter [_ [_ [_ Hget]]]]]].
    unfold getIssue. split.
    + rewrite Hget, Nat.eqb_refl. reflexivity.
    + intros other Hne. rewrite Hget.
      apply Nat.eqb_neq in Hne. rewrite Hne. reflexivity.
  - intro H. unfold getIssue. rewrite H. reflexivity.
Qed.

Lemma getIssue_reads_back_witness :
  exists doc' db',
    updateIssue 2000 adminCredentials 1 (statusOnly "in_review") sampleDb
    = (IssueResult 200 "Issue updated successfully" doc', db')
    /\ getIssue 1 db' = IssueResult 200 "" doc'
    /\ getIssue 5 db' = Failure 404 "Issue not found".
Proof.
  destruct (getIssue_reads_back 2000 adminCredentials 1
              (statusOnly "in_review") (flagBy 2 "spam") sampleDb)
    as [Hupdate _].
  eexists. eexists. split; [reflexivity |].
  destruct (Hupdate _ _ _ _ eq_refl) as [Hsame Hother].
  split; [exact Hsame |].
  rewrite Hother by discriminate.
  destruct (getIssue_reads_back 2000 adminCredentials 5
              (statusOnly "in_review") (flagBy 2 "spam") sampleDb)
    as [_ [_ Hmissing]].
  apply Hmissing. reflexivity.
Defined.

Lemma findByIdAndDelete_lookup (id : ObjectId) (coll : list Issue) :
  NoDup (map _id coll) ->
  match find (fun i => Nat.eqb (_id i) id) coll with
  | Some doc =>
      exists coll',
        findByIdAndDelete id coll = Some (doc, coll')
        /\ S (List.length coll') = List.length coll
        /\ incl coll' coll
        /\ NoDup (map _id coll')
        /\ forall id',
             find (fun i => Nat.eqb (_id i) id') coll'
             = if Nat.eqb id' id then None
               else find (fun i => Nat.eqb (_id i) id') coll
  | None => findByIdAndDelete id coll = None
  end.
Proof.
  induction coll as [| d rest IH]; intro Hnd; simpl; [reflexivity |].
  simpl in Hnd. apply NoDup_cons_iff in Hnd. destruct Hnd as [Hfresh Hnd].
  specialize (IH Hnd).
  destruct (Nat.eqb (_id d) id) eqn:E.
  - exists rest. split; [reflexivity |]. split; [reflexivity |].
    split; [apply incl_tl, incl_refl |]. split; [exact Hnd |].
    intro id'. apply Nat.eqb_eq in E. subst id.
    rewrite (Nat.eqb_sym id' (_id d)).
    destruct (Nat.eqb (_id d) id') eqn:E'; [| reflexivity].
    apply Nat.eqb_eq in E'. subst id'.
    destruct (find (fun i => Nat.eqb (_id i) (_id d)) rest) as [x |] eqn:Hx;
      [| reflexivity].
    exfalso. apply find_some in Hx. destruct Hx as [Hin Heq].
    apply Nat.eqb_eq in Heq. apply Hfresh. rewrite <- Heq.
    apply in_map. exact Hin.
  - destruct (find (fun i => Nat.eqb (_id i) id) rest) as [doc |] eqn:Hdoc.
    + destruct IH as [coll' [Hdel [Hlen [Hincl [Hnd' Hget]]]]]. rewrite Hdel.
      exists (d :: coll'). split; [reflexivity |].
      split; [simpl; rewrite Hlen; reflexivity |].
      split; [apply incl_cons;
              [left; reflexivity | apply incl_tl; exact Hincl] |].
      split.
      * simpl. constructor; [| exact Hnd'].
        intro Hin. apply Hfresh. apply in_map_iff in Hin.
        destruct Hin as [x [Hx Hin]]. rewrite <- Hx. apply in_map.
        apply Hincl. exact Hin.
      * intro id'. simpl. rewrite Hget.
        destruct (Nat.eqb (_id d) id') eqn:E'; [| reflexivity].
        apply Nat.eqb_eq in E'. subst id'. rewrite E. reflexivity.
    + rewrite IH. reflexivity.
Qed.

(** X11.  Deleting, by an admin: an unknown id is a 404 and nothing
    changes; otherwise one document is removed, the users are untouched,
    and, the ids of the collection being distinct, the issue can no longer
    be read while every other issue reads as before. *)
Theorem deleteIssue_removes (c : Credentials) (id : ObjectId) (db : Db) :
  adminOnly c = None ->
  NoDup (map _id (issues db)) ->
  match findIssueById id db with
  | None => deleteIssue c id db = (inl (Failure 404 "Issue not found"), db)
  | Some doc =>
      exists db',
        deleteIssue c id db = (inr "Issue deleted successfully", db')
        /\ users db' = users db
        /\ S (List.length (issues db')) = List.length (issues db)
        /\ NoDup (map _id (issues db'))
        /\ getIssue id db' = Failure 404 "Issue not found"
        /\ forall other, other <> id -> getIssue other db' = getIssue other db
  end.
Proof.
  intros Hadmin Hnd. unfold deleteIssue, findIssueById. rewrite Hadmin.
  pose proof (findByIdAndDelete_lookup id (issues db) Hnd) as Hlook.
  destruct (find _ (issues db)) as [doc |].
  - destruct Hlook as [coll' [Hdel [Hlen [_ [Hnd' Hget]]]]]. rewrite Hdel.
    eexists. split; [reflexivity |]. split; [reflexivity |].
    split; [exact Hlen |]. split; [exact Hnd' |].
    unfold getIssue, findIssueById. simpl. split.
    + rewrite Hget, Nat.eqb_refl. reflexivity.
    + intros other Hne. rewrite Hget.
      apply Nat.eqb_neq in Hne. rewrite Hne. reflexivity.
  - rewrite Hlook. reflexivity.
Qed.

Lemma deleteIssue_removes_witness :
  exists db',
    deleteIssue adminCredentials 1 sampleDb
    = (inr "Issue deleted successfully"%string, db')
    /\ getIssue 1 db' = Failure 404 "Issue not found".
Proof.
  assert (Hnd : NoDup (map _id (issues sampleDb))).
  { simpl. constructor; [intros [] | constructor]. }
  destruct (deleteIssue_removes adminCredentials 1 sampleDb eq_refl Hnd)
    as [db' [Hdel [_ [_ [_ [Hgone _]]]]]].
  exists db'. split; [exact Hdel | exact Hgone].
Defined.

(** ** The server: bans, submissions and statistics *)






(** X13.  A location on the equator or on the prime meridian cannot be
    reported: a coordinate of exactly 0 reads as missing, and the request
    is refused with a 400 before the reporter is even looked up, whoever
    reports and whatever else the body holds. *)
Theorem createIssue_rejects_zero_coordinate
    (getDistance : LatLon -> LatLon -> R) (now : Date) (body : CreateBody)
    (db : Db) (title description category : string) (loc : Location)
    (reporter : ObjectId) :
  b_title body = Some title ->
  b_description body = Some description ->
  b_category body = Some category ->
  b_location body = Some loc ->
  b_reportedBy body = Some reporter ->
  title <> ""%string -> description <> ""%string -> category <> ""%string ->
  latitude loc = 0 \/ longitude loc = 0 ->
  createIssue getDistance now body db
  = (Failure 400 "Location must include latitude, longitude, and address", db).
Proof.
  intros Ht Hd Hc Hl Hr Htne Hdne Hcne Hzero.
  unfold createIssue. rewrite Ht, Hd, Hc, Hl, Hr.
  apply String.eqb_neq in Htne, Hdne, Hcne.
  rewrite Htne, Hdne, Hcne. cbn [orb].
  replace (locationIncomplete loc) with true; [reflexivity |].
  unfold locationIncomplete.
  destruct Hzero as [-> | ->]; rewrite truthyNum_zero; cbn [negb orb];
    [reflexivity |].
  destruct (negb (truthyNum (latitude loc))); reflexivity.
Qed.

Lemma createIssue_rejects_zero_coordinate_witness :
  createIssue haversineMetres 1000 equatorBody sampleDb
  = (Failure 400 "Location must include latitude, longitude, and address",
     sampleDb).
Proof.
  apply (createIssue_rejects_zero_coordinate haversineMetres 1000 equatorBody
           sampleDb _ _ _ equatorLocation 1%nat
           eq_refl eq_refl eq_refl eq_refl eq_refl
           ltac:(discriminate) ltac:(discriminate) ltac:(discriminate)).
  left. reflexivity.
Defined.

Lemma maxAllowedRadius_le_5 (user : User) : maxAllowedRadius user <= 5.
Proof. unfold maxAllowedRadius. apply Rmin_r. Qed.

Lemma gtR_elim_false (x y : R) : gtR x y = false -> x <= y.
Proof.
  unfold gtR. destruct (Rgt_dec x y); [discriminate | intros _; lra].
Qed.

(** X14.  Whatever the request and the preferred radius of the reporter,
    an answer with an issue means: status 201, one document appended, with
    the next id, status [reported], unflagged, without votes, valid for the
    schema, by an existing reporter with a set location, at most 5 km from
    it.  Any other answer leaves the database as it was. *)
Theorem createIssue_sound (getDistance : LatLon -> LatLon -> R) (now : Date)
    (body : CreateBody) (db : Db) :
  match createIssue getDistance now body db with
  | (IssueResult code _ doc, db') =>
      code = 201%nat
      /\ db' = mkDb (users db) (issues db ++ [doc]) (statusHistories db)
                    (S (nextId db))
      /\ _id doc = nextId db
      /\ status doc = "reported"%string
      /\ isFlagged doc = false
      /\ upvotes doc = [] /\ downvotes doc = []
      /\ createdAt doc = now
      /\ validateIssue doc = true
      /\ b_reportedBy body = Some (reportedBy doc)
      /\ exists user userLoc,
           findUserById (reportedBy doc) db = Some user
           /\ defaultLocationSet user = Some userLoc
           /\ calculateDistance getDistance userLoc (location doc) <= 5
  | (_, db') => db' = db
  end.
Proof.
  unfold createIssue.
  destruct (b_title body) as [title |]; [| reflexivity].
  destruct (b_description body) as [description |]; [| reflexivity].
  destruct (b_category body) as [category |]; [| reflexivity].
  destruct (b_location body) as [loc |]; [| reflexivity].
  destruct (b_reportedBy body) as [reporter |]; [| reflexivity].
  destruct (_ || _)%bool; [reflexivity |].
  destruct (locationIncomplete loc); [reflexivity |].
  destruct (findUserById reporter db) as [user |] eqn:Huser; [| reflexivity].
  destruct (defaultLocationSet user) as [userLoc |] eqn:Hloc; [| reflexivity].
  destruct (gtR _ _) eqn:Hgt; [reflexivity |].
  unfold saveNew.
  destruct (validateIssue _) eqn:Hvalid; [| reflexivity].
  rewrite preSave_unmodified.
  repeat (split; [first [reflexivity | exact Hvalid] |]).
  exists user, userLoc. split; [exact Huser |]. split; [exact Hloc |].
  apply gtR_elim_false in Hgt.
  pose proof (maxAllowedRadius_le_5 user).
  change (calculateDistance getDistance userLoc
            (location (newIssue (nextId db) now title description category
                                body loc reporter)))
    with (calculateDistance getDistance userLoc loc).
  lra.
Qed.

Lemma countDocuments_cons (p : Issue -> bool) (i : Issue) (coll : list Issue) :
  countDocuments p (i :: coll)
  = ((if p i then 1 else 0) + countDocuments p coll)%nat.
Proof. unfold countDocuments. cbn [filter]. destruct (p i); reflexivity. Qed.

Lemma countDocuments_le (p : Issue -> bool) (coll : list Issue) :
  (countDocuments p coll <= countDocuments (fun _ => true) coll)%nat.
Proof.
  induction coll as [| i coll IH]; [apply Nat.le_refl |].
  rewrite !countDocuments_cons. destruct (p i); lia.
Qed.

Lemma statusValues_cases (s : string) :
  includes statusValues s = true ->
  s = "reported"%string \/ s = "in_review"%string \/ s = "in_progress"%string
  \/ s = "resolved"%string \/ s = "closed"%string \/ s = "rejected"%string.
Proof.
  unfold includes, statusValues. cbn [existsb]. intro H.
  repeat (apply orb_prop in H; destruct H as [H | H]);
    try discriminate H; apply String.eqb_eq in H; tauto.
Qed.

Lemma status_buckets (coll : list Issue) :
  Forall (fun i => includes statusValues (status i) = true) coll ->
  (countDocuments (fun i => String.eqb (status i) "resolved") coll
   + countDocuments (fun i => String.eqb (status i) "reported") coll
   + countDocuments (fun i => includes ["in_review"; "in_progress"] (status i))
                    coll
   + countDocuments (fun i => String.eqb (status i) "rejected") coll
   + countDocuments (fun i => String.eqb (status i) "closed") coll
   = countDocuments (fun _ => true) coll)%nat.
Proof.
  induction 1 as [| i coll Hi _ IH]; [reflexivity |].
  rewrite !countDocuments_cons, <- IH.
  apply statusValues_cases in Hi.
  destruct Hi as [E | [E | [E | [E | [E | E]]]]]; rewrite E;
    cbv [includes existsb String.eqb Ascii.eqb Bool.eqb orb]; lia.
Qed.

Lemma isResolved_count (coll : list Issue) :
  (countDocuments isResolved coll
   = countDocuments (fun i => String.eqb (status i) "resolved") coll
     + countDocuments (fun i => String.eqb (status i) "closed") coll)%nat.
Proof.
  induction coll as [| i coll IH]; [reflexivity |].
  rewrite !countDocuments_cons, IH. unfold isResolved.
  destruct (String.eqb (status i) "resolved") eqn:E.
  - apply String.eqb_eq in E. rewrite E. cbn [orb]. 
    cbv [String.eqb Ascii.eqb Bool.eqb]. lia.
  - cbn [orb]. destruct (String.eqb (status i) "closed"); lia.
Qed.

Lemma jsRound_percent (x : R) : 0 <= x <= 100 -> 0 <= jsRound x <= 100.
Proof.
  intros [H0 H100]. unfold jsRound.
  destruct (base_Int_part (x + / 2)) as [Hle Hgt].
  split.
  - apply IZR_le. apply Z.lt_succ_r. apply lt_IZR.
    replace (IZR (Z.succ (Int_part (x + / 2))))
      with (IZR (Int_part (x + / 2)) + 1) by (rewrite succ_IZR; reflexivity).
    lra.
  - apply IZR_le. apply Z.lt_succ_r. apply lt_IZR. 
    change (Z.succ 100) with 101%Z. lra.
Qed.

(** X15.  The overview of the statistics, over documents whose status is
    one of the schema's: the four status counts and the closed issues add
    up to the total, so a closed issue is counted in no bucket and not in
    the resolution rate although [isResolved] holds of it; the flagged
    count is at most the total; the rate is a percentage. *)
Theorem analyticsOverview_buckets (db : Db) :
  Forall (fun i => includes statusValues (status i) = true) (issues db) ->
  let o := analyticsOverview db in
  (ov_resolved o + ov_pending o + ov_inProgress o + ov_rejected o
   + countDocuments (fun i => String.eqb (status i) "closed") (issues db)
   = ov_total o)%nat
  /\ (countDocuments isResolved (issues db)
      = ov_resolved o
        + countDocuments (fun i => String.eqb (status i) "closed") (issues db))%nat
  /\ (ov_flagged o <= ov_total o)%nat
  /\ 0 <= ov_resolutionRate o <= 100.
Proof.
  intros Hs o. subst o. unfold analyticsOverview.
  cbn [ov_total ov_resolved ov_pending ov_inProgress ov_rejected ov_flagged
       ov_resolutionRate].
  split; [apply status_buckets; exact Hs |].
  split; [apply isResolved_count |].
  split; [apply countDocuments_le |].
  destruct (Nat.ltb 0 (countDocuments (fun _ => true) (issues db))) eqn:Hpos;
    [| lra].
  apply Nat.ltb_lt in Hpos. apply jsRound_percent.
  pose proof (countDocuments_le (fun i => String.eqb (status i) "resolved")
                                (issues db)) as Hle.
  apply le_INR in Hle. apply lt_INR in Hpos. cbn [INR] in Hpos.
  pose proof (pos_INR (countDocuments
                         (fun i => String.eqb (status i) "resolved")
                         (issues db))) as H0.
  set (r := INR (countDocuments (fun i => String.eqb (status i) "resolved")
                                (issues db))) in *.
  set (t := INR (countDocuments (fun _ => true) (issues db))) in *.
  assert (Hq : 0 <= r / t <= 1).
  { split.
    - apply Rmult_le_pos; [exact H0 |]. left. apply Rinv_0_lt_compat. exact Hpos.
    - apply (Rmult_le_reg_r t); [exact Hpos |].
      unfold Rdiv. rewrite Rmult_assoc, Rinv_l by lra. lra. }
  lra.
Qed.

Lemma analyticsOverview_buckets_witness :
  (ov_resolved (analyticsOverview (dbWith resolvedIssue))
   + ov_pending (analyticsOverview (dbWith resolvedIssue))
   + ov_inProgress (analyticsOverview (dbWith resolvedIssue))
   + ov_rejected (analyticsOverview (dbWith resolvedIssue))
   + countDocuments (fun i => String.eqb (status i) "closed")
                    (issues (dbWith resolvedIssue))
   = ov_total (analyticsOverview (dbWith resolvedIssue)))%nat.
Proof.
  refine (proj1 (analyticsOverview_buckets (dbWith resolvedIssue) _)).
  repeat constructor.
Defined.

(** ** Paging through the public list *)

Lemma firstn_plus {A : Type} (a b : nat) (l : list A) :
  firstn (a + b) l = (firstn a l ++ firstn b (skipn a l))%list.
Proof.
  revert l. induction a as [| a IH]; intro l; [reflexivity |].
  destruct l as [| x l]; cbn [Nat.add firstn skipn app].
  - rewrite firstn_nil. reflexivity.
  - rewrite IH. reflexivity.
Qed.

Lemma pages_concat {A : Type} (size : nat) (l : list A) (n : nat) :
  List.concat (map (fun p => firstn size (skipn ((p - 1) * size) l)) (seq 1 n))
  = firstn (n * size) l.
Proof.
  induction n as [| n IH]; [reflexivity |].
  rewrite seq_S, map_app, concat_app, IH.
  cbn [map List.concat Nat.add]. rewrite app_nil_r.
  replace (S n - 1)%nat with n by lia.
  replace (S n * size)%nat with (n * size + size)%nat by lia.
  symmetry. apply firstn_plus.
Qed.

Lemma getIssues_page (textSearch : string -> Issue -> bool) (q : ListQuery)
    (db : Db) (limit : Z) (p : nat) :
  q_limit q = Some limit -> (0 < limit)%Z ->
  pageData (getIssues textSearch (atPage (Z.of_nat (S p)) q) db)
  = firstn (Z.to_nat limit)
      (skipn (p * Z.to_nat limit)
         (sortCreatedAtDesc (filter (publicQuery textSearch q) (issues db)))).
Proof.
  intros Hl Hpos. unfold getIssues, atPage, skipLimit.
  cbn [q_page q_limit orDefault]. rewrite Hl. cbn [orDefault].
  replace (Z.ltb ((Z.of_nat (S p) - 1) * limit) 0) with false
    by (symmetry; apply Z.ltb_ge; nia).
  replace (Z.eqb limit 0) with false by (symmetry; apply Z.eqb_neq; lia).
  cbn [pageData].
  replace (Z.to_nat ((Z.of_nat (S p) - 1) * limit))
    with (p * Z.to_nat limit)%nat by nia.
  rewrite Zabs2Nat.abs_nat_nonneg by lia.
  reflexivity.
Qed.

(** With distinct dates there is one arrangement by [createdAt]
    descending. *)
Lemma newerFirst_unique (l1 l2 : list Issue) :
  NoDup (map createdAt l1) ->
  StronglySorted newerFirst l1 ->
  StronglySorted newerFirst l2 ->
  Permutation l1 l2 ->
  l1 = l2.
Proof.
  revert l2. induction l1 as [| a l1 IH]; intros l2 Hnd Hs1 Hs2 Hperm.
  - apply Permutation_nil in Hperm. symmetry. exact Hperm.
  - destruct l2 as [| b l2].
    { apply Permutation_sym, Permutation_nil in Hperm. discriminate Hperm. }
    inversion Hnd as [| ? ? Hnotin Hnd']; subst.
    inversion Hs1 as [| ? ? Hs1' Ha]; subst.
    inversion Hs2 as [| ? ? Hs2' Hb]; subst.
    rewrite Forall_forall in Ha, Hb.
    assert (Hab : a = b).
    { assert (Hina : In a (b :: l2))
        by (apply (Permutation_in _ Hperm); left; reflexivity).
      assert (Hinb : In b (a :: l1))
        by (apply (Permutation_in _ (Permutation_sym Hperm)); left;
            reflexivity).
      destruct Hina as [Heq | Hina]; [symmetry; exact Heq |].
      destruct Hinb as [Heq | Hinb]; [exact Heq |].
      exfalso. apply Hnotin.
      specialize (Ha b Hinb). specialize (Hb a Hina).
      unfold newerFirst in Ha, Hb.
      replace (createdAt a) with (createdAt b) by lia.
      apply in_map. exact Hinb. }
    subst b. f_equal.
    apply IH; [exact Hnd' | exact Hs1' | exact Hs2' |].
    exact (Permutation_cons_inv Hperm).
Qed.

(** X16.  With a positive [limit] and matching issues of distinct
    creation dates, the pages 1 to [n] of the public list, one after the
    other, are the first [n * limit] of the matching issues by
    [createdAt] descending: no document is repeated or skipped between
    two pages; and once [n * limit] reaches the number of matching issues,
    the pages are all of them. *)
Theorem getIssues_pages_compose (textSearch : string -> Issue -> bool)
    (q : ListQuery) (db : Db) (limit : Z) (n : nat) (sorted : list Issue) :
  q_limit q = Some limit -> (0 < limit)%Z ->
  let found := filter (publicQuery textSearch q) (issues db) in
  let pages :=
    List.concat (map (fun p => pageData (getIssues textSearch
                                      (atPage (Z.of_nat p) q) db))
                (seq 1 n)) in
  NoDup (map createdAt found) ->
  StronglySorted newerFirst sorted ->
  Permutation sorted found ->
  pages = firstn (n * Z.to_nat limit) sorted
  /\ ((List.length found <= n * Z.to_nat limit)%nat -> pages = sorted).
Proof.
  intros Hl Hpos found pages Hnd Hsorted Hperm.
  assert (Hmodel : sortCreatedAtDesc found = sorted).
  { apply newerFirst_unique.
    - apply (Permutation_NoDup
               (Permutation_map createdAt
                  (Permutation_sym (sortCreatedAtDesc_perm found)))).
      exact Hnd.
    - apply sortCreatedAtDesc_sorted.
    - exact Hsorted.
    - apply (Permutation_trans (sortCreatedAtDesc_perm found)).
      apply Permutation_sym. exact Hperm. }
  assert (E : pages = firstn (n * Z.to_nat limit) sorted).
  { subst pages. rewrite <- Hmodel, <- pages_concat. f_equal.
    apply map_ext_in. intros p Hp. apply in_seq in Hp.
    destruct p as [| p]; [lia |].
    rewrite (getIssues_page textSearch q db limit p Hl Hpos).
    replace (S p - 1)%nat with p by lia. reflexivity. }
  split; [exact E |].
  intro Hlen. rewrite E. apply firstn_all2.
  rewrite (Permutation_length Hperm). exact Hlen.
Qed.

Lemma getIssues_pages_compose_witness :
  List.concat (map (fun p => pageData (getIssues noTextSearch
                                         (atPage (Z.of_nat p)
                                            (mkListQuery None (Some 1%Z) None
                                               None None None None None None
                                               None))
                                         sampleDb))
                   (seq 1 2))
  = [sampleIssue].
Proof.
  refine (proj2 (getIssues_pages_compose noTextSearch
                   (mkListQuery None (Some 1%Z) None None None None None None
                      None None)
                   sampleDb 1%Z 2 [sampleIssue] eq_refl _ _ _ _) _).
  - reflexivity.
  - cbn. constructor; [intros [] | constructor].
  - repeat constructor.
  - apply Permutation_refl.
  - cbn. lia.
Defined.

(** ** The token of a request *)

Lemma splitSpace_word (word rest : string) :
  containsChar " " word = false ->
  splitSpace (word ++ String " " rest) = word :: splitSpace rest.
Proof.
  induction word as [| c word IH]; intro H; [reflexivity |].
  cbn [containsChar] in H. apply orb_false_elim in H. destruct H as [Hc Hw].
  cbn [String.append splitSpace]. rewrite Hc, (IH Hw). reflexivity.
Qed.

Lemma splitSpace_last (word : string) :
  containsChar " " word = false -> splitSpace word = [word].
Proof.
  induction word as [| c word IH]; intro H; [reflexivity |].
  cbn [containsChar] in H. apply orb_false_elim in H. destruct H as [Hc Hw].
  cbn [splitSpace]. rewrite Hc, (IH Hw). reflexivity.
Qed.

Lemma substring_all (s : string) : String.substring 0 (String.length s) s = s.
Proof.
  induction s as [| c s IH]; [reflexivity |].
  cbn [String.length String.substring]. rewrite IH. reflexivity.
Qed.

Lemma substring_after (p s : string) :
  String.substring (String.length p) (String.length (p ++ s) - String.length p)
                   (p ++ s) = s.
Proof.
  induction p as [| c p IH].
  - cbn [String.append String.length]. rewrite Nat.sub_0_r.
    apply substring_all.
  - cbn [String.append String.length String.substring Nat.sub]. exact IH.
Qed.

Lemma substring_bearer (s : string) :
  String.substring 7 (String.length ("Bearer " ++ s) - 7) ("Bearer " ++ s) = s.
Proof. exact (substring_after "Bearer " s). Qed.

Lemma prefix_split (p h : string) :
  String.prefix p h = true -> exists s, h = (p ++ s)%string.
Proof.
  revert h. induction p as [| c p IH]; intros h H.
  - exists h. reflexivity.
  - destruct h as [| d h]; [discriminate H |].
    cbn [String.prefix] in H.
    destruct (ascii_dec c d) as [-> | _]; [| discriminate H].
    destruct (IH h H) as [s ->]. exists s. reflexivity.
Qed.

Lemma prefix_append (p s : string) : String.prefix p (p ++ s) = true.
Proof.
  induction p as [| c p IH]; [destruct s; reflexivity |].
  cbn [String.append String.prefix].
  destruct (ascii_dec c c) as [_ | H]; [exact IH | exfalso; apply H; reflexivity].
Qed.

(** X17.  [extractTokenFromHeader] returns a token exactly for the headers
    that start with [Bearer ], and the token is all that follows, spaces
    included and even if nothing follows. *)
Theorem extractTokenFromHeader_round_trip (authHeader : option string)
    (token : string) :
  extractTokenFromHeader authHeader = Some token
  <-> authHeader = Some ("Bearer " ++ token)%string.
Proof.
  unfold extractTokenFromHeader. split.
  - destruct authHeader as [h |]; [| intro H; discriminate H].
    destruct (String.eqb h ""); cbn [orb]; [intro H; discriminate H |].
    destruct (String.prefix "Bearer " h) eqn:Hp; cbn [negb];
      [| intro H; discriminate H].
    apply prefix_split in Hp. destruct Hp as [s ->].
    rewrite substring_bearer. intro H. injection H as <-. reflexivity.
  - intros ->. rewrite prefix_append, substring_bearer. reflexivity.
Qed.

(** X18.  The server takes the second word of the header as the token,
    whatever the first word is and whatever follows the second. *)
Theorem headerToken_second_word (scheme token : string) :
  containsChar " " scheme = false ->
  containsChar " " token = false ->
  token <> ""%string ->
  headerToken (Some (scheme ++ " " ++ token)%string) = Some token
  /\ forall rest,
       headerToken (Some (scheme ++ " " ++ token ++ " " ++ rest)%string)
       = Some token.
Proof.
  intros Hs Ht Hne. apply String.eqb_neq in Hne. unfold headerToken. split.
  - change (scheme ++ " " ++ token)%string
      with (scheme ++ String " " token)%string.
    rewrite (splitSpace_word scheme token Hs), (splitSpace_last token Ht).
    cbn [nth_error]. rewrite Hne. reflexivity.
  - intro rest.
    change (scheme ++ " " ++ token ++ " " ++ rest)%string
      with (scheme ++ String " " (token ++ String " " rest))%string.
    rewrite (splitSpace_word scheme _ Hs), (splitSpace_word token rest Ht).
    cbn [nth_error]. rewrite Hne. reflexivity.
Qed.

Lemma headerToken_second_word_witness :
  headerToken (Some "Basic abc.def.ghi") = Some "abc.def.ghi"%string.
Proof.
  exact (proj1 (headerToken_second_word "Basic" "abc.def.ghi"
                  eq_refl eq_refl ltac:(discriminate))).
Defined.

(** ** What a sequence of requests keeps *)

Lemma applyUpdateData_sameReport (now : Date) (body : UpdateBody) (d : Issue) :
  sameReport d (applyUpdateData now body d)
  /\ flaggedReason (applyUpdateData now body d) = flaggedReason d.
Proof.
  unfold applyUpdateData, sameReport.
  destruct (truthyStr (u_status body)), (truthyStr (u_priority body)),
    (u_tags body); destruct d; repeat split; reflexivity.
Qed.

Lemma applyFlag_sameReport (now : Date) (reason : string)
    (reporter : ObjectId) (d : Issue) :
  sameReport d (applyFlag now reason reporter d)
  /\ status (applyFlag now reason reporter d) = status d
  /\ priority (applyFlag now reason reporter d) = priority d
  /\ tags (applyFlag now reason reporter d) = tags d
  /\ flaggedReason (applyFlag now reason reporter d) = Some reason.
Proof. unfold sameReport. destruct d; repeat split; reflexivity. Qed.

Lemma sameReport_refl (d : Issue) : sameReport d d.
Proof. unfold sameReport. repeat split; reflexivity. Qed.

Lemma sameReport_trans (a b c : Issue) :
  sameReport a b -> sameReport b c -> sameReport a c.
Proof.
  unfold sameReport. intros Hab Hbc.
  repeat match goal with
         | H : _ /\ _ |- _ => destruct H
         end.
  repeat split; congruence.
Qed.

(** X19.  No sequence of submissions, updates and flags removes an issue or
    changes what was reported: its title, description, category, location,
    reporter, images, votes, views, resolution date and notes and its
    creation date stay as they were. *)
Theorem serve_keeps_report (getDistance : LatLon -> LatLon -> R)
    (requests : list Request) (db : Db) (id : ObjectId) (doc : Issue) :
  findIssueById id db = Some doc ->
  exists doc',
    findIssueById id (serve getDistance requests db) = Some doc'
    /\ sameReport doc doc'.
Proof.
  unfold serve. revert db doc.
  induction requests as [| r rest IH]; intros db doc Hfind.
  - exists doc. split; [exact Hfind | apply sameReport_refl].
  - cbn [fold_left].
    assert (Hstep : exists d,
               findIssueById id (snd (handle getDistance r db)) = Some d
               /\ sameReport doc d).
    { destruct r as [now body | now c id0 body | now id0 body]; cbn [handle].
      - destruct (createIssue_appends getDistance now body db) as [extra Hx].
        exists doc. split; [| apply sameReport_refl].
        unfold findIssueById in *. rewrite Hx. apply find_app_l. exact Hfind.
      - destruct (updateIssue_outcome now c id0 body db)
          as [-> | [d [Hd Hget]]].
        + exists doc. split; [exact Hfind | apply sameReport_refl].
        + rewrite Hget. destruct (Nat.eqb id id0) eqn:E.
          * apply Nat.eqb_eq in E. subst id0.
            rewrite Hfind in Hd. injection Hd as <-.
            eexists. split; [reflexivity |].
            apply applyUpdateData_sameReport.
          * exists doc. split; [exact Hfind | apply sameReport_refl].
      - destruct (flagIssue_outcome now id0 body db)
          as [-> | [reason [reporter [d [Hd Hget]]]]].
        + exists doc. split; [exact Hfind | apply sameReport_refl].
        + rewrite Hget. destruct (Nat.eqb id id0) eqn:E.
          * apply Nat.eqb_eq in E. subst id0.
            rewrite Hfind in Hd. injection Hd as <-.
            eexists. split; [reflexivity |].
            apply applyFlag_sameReport.
          * exists doc. split; [exact Hfind | apply sameReport_refl]. }
    destruct Hstep as [d [Hd Hsame]].
    destruct (IH _ d Hd) as [doc' [Hdoc' Hsame']].
    exists doc'. split; [exact Hdoc' |].
    exact (sameReport_trans _ _ _ Hsame Hsame').
Qed.

Lemma serve_keeps_report_witness :
  exists doc',
    findIssueById 1
      (serve haversineMetres
         [PutIssue 2000 adminCredentials 1 (statusOnly "resolved");
          PostFlag 3000 1 (flagBy 7 "Duplicate report")]
         (dbWith sampleIssue)) = Some doc'
    /\ sameReport sampleIssue doc'.
Proof.
  apply (serve_keeps_report haversineMetres _ (dbWith sampleIssue) 1%nat
           sampleIssue).
  reflexivity.
Defined.

Lemma findByIdAndUpdate_Forall (P : Issue -> Prop) (id : ObjectId)
    (f : Issue -> Issue) (coll coll' : list Issue) (d : Issue) :
  (forall x, P x -> P (f x)) ->
  findByIdAndUpdate id f coll = Some (d, coll') ->
  Forall P coll -> Forall P coll'.
Proof.
  intro Hf. revert coll' d.
  induction coll as [| x rest IH]; intros coll' d; cbn [findByIdAndUpdate];
    [intro H; discriminate H |].
  destruct (Nat.eqb (_id x) id).
  - intro H. injection H as _ <-. intro Hall.
    inversion Hall as [| ? ? Hx Hrest]; subst.
    constructor; [apply Hf; exact Hx | exact Hrest].
  - destruct (findByIdAndUpdate id f rest) as [[d' rest'] |];
      [| intro H; discriminate H].
    intro H. injection H as _ <-. intro Hall.
    inversion Hall as [| ? ? Hx Hrest]; subst.
    constructor; [exact Hx | exact (IH rest' d' eq_refl Hrest)].
Qed.

(** The three requests on the store: nothing, one document more, or one
    document updated where it is. *)
Lemma createIssue_store (getDistance : LatLon -> LatLon -> R) (now : Date)
    (body : CreateBody) (db : Db) :
  snd (createIssue getDistance now body db) = db
  \/ exists doc,
       snd (createIssue getDistance now body db)
       = mkDb (users db) (issues db ++ [doc]) (statusHistories db)
              (S (nextId db))
       /\ _id doc = nextId db
       /\ validateIssue doc = true.
Proof.
  unfold createIssue, saveNew.
  destruct (b_title body) as [t |]; [| left; reflexivity].
  destruct (b_description body) as [d |]; [| left; reflexivity].
  destruct (b_category body) as [c |]; [| left; reflexivity].
  destruct (b_location body) as [loc |]; [| left; reflexivity].
  destruct (b_reportedBy body) as [reporter |]; [| left; reflexivity].
  destruct (_ || _)%bool; [left; reflexivity |].
  destruct (locationIncomplete loc); [left; reflexivity |].
  destruct (findUserById reporter db) as [user |]; [| left; reflexivity].
  destruct (defaultLocationSet user) as [userLoc |]; [| left; reflexivity].
  destruct (gtR _ _); [left; reflexivity |].
  destruct (validateIssue _) eqn:Hvalid; [| left; reflexivity].
  right. rewrite preSave_unmodified. eexists.
  split; [reflexivity |]. split; [reflexivity | exact Hvalid].
Qed.

Lemma updateIssue_store (now : Date) (c : Credentials) (id : ObjectId)
    (body : UpdateBody) (db : Db) :
  snd (updateIssue now c id body db) = db
  \/ exists d issues',
       findByIdAndUpdate id (applyUpdateData now body) (issues db)
       = Some (d, issues')
       /\ snd (updateIssue now c id body db) = set_issues issues' db
       /\ updateDataValid body = true.
Proof.
  unfold updateIssue.
  destruct (adminOnly c); [left; reflexivity |].
  destruct (_ && _)%bool; [left; reflexivity |].
  destruct (updateDataValid body); cbn [negb]; [| left; reflexivity].
  destruct (findByIdAndUpdate _ _ _) as [[d issues'] |]; [| left; reflexivity].
  right. exists d, issues'. repeat split; reflexivity.
Qed.

Lemma flagIssue_store (now : Date) (id : ObjectId) (body : FlagBody)
    (db : Db) :
  snd (flagIssue now id body db) = db
  \/ exists reason reporter d issues',
       findByIdAndUpdate id (applyFlag now reason reporter) (issues db)
       = Some (d, issues')
       /\ snd (flagIssue now id body db) = set_issues issues' db
       /\ Nat.leb (String.length reason) 500 = true.
Proof.
  unfold flagIssue.
  destruct (f_reason body) as [reason |]; [| left; reflexivity].
  destruct (f_reportedBy body) as [reporter |]; [| left; reflexivity].
  destruct (String.eqb reason ""); [left; reflexivity |].
  destruct (Nat.leb (String.length reason) 500) eqn:Hlen; cbn [negb];
    [| left; reflexivity].
  destruct (findByIdAndUpdate _ _ _) as [[d issues'] |] eqn:Hupd;
    [| left; reflexivity].
  right. exists reason, reporter, d, issues'.
  split; [exact Hupd |]. split; [reflexivity | exact Hlen].
Qed.

Lemma applyUpdateData_set (now : Date) (body : UpdateBody) (d : Issue) :
  status (applyUpdateData now body d)
  = (if truthyStr (u_status body) then orDefault (u_status body) ""
     else status d)
  /\ priority (applyUpdateData now body d)
     = (if truthyStr (u_priority body) then orDefault (u_priority body) ""
        else priority d)
  /\ tags (applyUpdateData now body d)
     = match u_tags body with
       | Some tags => map (fun tag => toLowerCase (trim tag)) tags
       | None => tags d
       end.
Proof.
  unfold applyUpdateData.
  destruct (truthyStr (u_status body)), (truthyStr (u_priority body)),
    (u_tags body); destruct d; repeat split; reflexivity.
Qed.

Lemma forallb_map {A B : Type} (p : B -> bool) (f : A -> B) (l : list A) :
  forallb p (map f l) = forallb (fun x => p (f x)) l.
Proof.
  induction l as [| x l IH]; [reflexivity |].
  cbn [map forallb]. rewrite IH. reflexivity.
Qed.

Ltac split_andb H :=
  repeat match type of H with
         | (_ && _)%bool = true =>
             let H' := fresh "Hv" in
             apply andb_prop in H; destruct H as [H H']
         end.

Lemma applyUpdateData_valid (now : Date) (body : UpdateBody) (d : Issue) :
  updateDataValid body = true ->
  validateIssue d = true ->
  validateIssue (applyUpdateData now body d) = true.
Proof.
  intros Hu Hv.
  destruct (applyUpdateData_sameReport now body d) as [Hsame Hreason].
  destruct (applyUpdateData_set now body d) as [Hst [Hpr Htg]].
  unfold sameReport in Hsame.
  repeat match goal with
         | H : _ /\ _ |- _ => destruct H
         end.
  unfold updateDataValid in Hu. split_andb Hu.
  unfold validateIssue, fieldsValid in *. split_andb Hv.
  repeat match goal with
         | H : _ (applyUpdateData now body d) = _ |- _ => rewrite H; clear H
         end.
  match goal with
  | H : coordinatesValid _ = true |- _ => rewrite H, andb_true_r
  end.
  repeat (apply andb_true_intro; split); try assumption.
  - destruct (truthyStr (u_priority body)); assumption.
  - destruct (truthyStr (u_status body)); assumption.
  - destruct (u_tags body) as [tags |]; [| assumption].
    rewrite forallb_map. assumption.
Qed.

Lemma applyFlag_valid (now : Date) (reason : string) (reporter : ObjectId)
    (d : Issue) :
  Nat.leb (String.length reason) 500 = true ->
  validateIssue d = true ->
  validateIssue (applyFlag now reason reporter d) = true.
Proof.
  intros Hlen Hv.
  destruct (applyFlag_sameReport now reason reporter d)
    as [Hsame [Hst [Hpr [Htg Hreason]]]].
  unfold sameReport in Hsame.
  repeat match goal with
         | H : _ /\ _ |- _ => destruct H
         end.
  unfold validateIssue, fieldsValid in *. split_andb Hv.
  repeat match goal with
         | H : _ (applyFlag now reason reporter d) = _ |- _ =>
             rewrite H; clear H
         end.
  match goal with
  | H : coordinatesValid _ = true |- _ => rewrite H, andb_true_r
  end.
  repeat (apply andb_true_intro; split); try assumption.
Qed.

Lemma handle_keeps_schema (getDistance : LatLon -> LatLon -> R) (r : Request)
    (db : Db) :
  schemaValid db -> schemaValid (snd (handle getDistance r db)).
Proof.
  unfold schemaValid. intro Hall.
  destruct r as [now body | now c id body | now id body]; cbn [handle].
  - destruct (createIssue_store getDistance now body db)
      as [-> | [doc [-> [_ Hvalid]]]]; [exact Hall |].
    cbn [issues]. apply Forall_app. split; [exact Hall |].
    constructor; [exact Hvalid | constructor].
  - destruct (updateIssue_store now c id body db)
      as [-> | [d [issues' [Hupd [-> Hu]]]]]; [exact Hall |].
    cbn [set_issues issues].
    apply (findByIdAndUpdate_Forall _ id (applyUpdateData now body)
             (issues db) _ d); [| exact Hupd | exact Hall].
    intros x Hx. apply applyUpdateData_valid; assumption.
  - destruct (flagIssue_store now id body db)
      as [-> | [reason [reporter [d [issues' [Hupd [-> Hlen]]]]]]];
      [exact Hall |].
    cbn [set_issues issues].
    apply (findByIdAndUpdate_Forall _ id (applyFlag now reason reporter)
             (issues db) _ d); [| exact Hupd | exact Hall].
    intros x Hx. apply applyFlag_valid; assumption.
Qed.

(** X21.  Every stored issue keeps passing the validators of the schema
    through any sequence of submissions, updates and flags: what
    [runValidators] checks of the fields that an update sets is enough,
    although [findByIdAndUpdate] does not validate the whole document. *)
Theorem serve_keeps_schema (getDistance : LatLon -> LatLon -> R)
    (requests : list Request) (db : Db) :
  schemaValid db -> schemaValid (serve getDistance requests db).
Proof.
  unfold serve. revert db.
  induction requests as [| r rest IH]; intros db H; cbn [fold_left];
    [exact H |].
  apply IH. apply handle_keeps_schema. exact H.
Qed.

Lemma serve_keeps_schema_witness :
  schemaValid (serve haversineMetres
                 [PostFlag 2000 1 (flagBy 7 "Duplicate report");
                  PutIssue 3000 adminCredentials 1 (statusOnly "closed")]
                 sampleDb).
Proof.
  apply (serve_keeps_schema haversineMetres _ sampleDb).
  constructor; [| constructor].
  apply validateIssue_intro; [| reflexivity].
  unfold coordinatesValid.
  cbn [sampleIssue location point latitude longitude].
  rewrite !leR_true by lra. reflexivity.
Defined.

(** ** The form utilities *)

Lemma containsChar_append (c : ascii) (a b : string) :
  containsChar c (a ++ b) = (containsChar c a || containsChar c b)%bool.
Proof.
  induction a as [| x a IH]; [reflexivity |].
  cbn [String.append containsChar]. rewrite IH. apply orb_assoc.
Qed.

Lemma replaceAll_removes (c : ascii) (r s : string) :
  containsChar c r = false -> containsChar c (replaceAll c r s) = false.
Proof.
  intro Hr. induction s as [| x s IH]; [reflexivity |].
  cbn [replaceAll]. destruct (Ascii.eqb x c) eqn:E.
  - rewrite containsChar_append, Hr, IH. reflexivity.
  - cbn [containsChar]. rewrite E, IH. reflexivity.
Qed.

Lemma replaceAll_keeps_out (c d : ascii) (r s : string) :
  containsChar c r = false -> containsChar c s = false ->
  containsChar c (replaceAll d r s) = false.
Proof.
  intro Hr. induction s as [| x s IH]; intro Hs; [reflexivity |].
  cbn [containsChar] in Hs. apply orb_false_elim in Hs. destruct Hs as [Hx Hs].
  cbn [replaceAll]. destruct (Ascii.eqb x d).
  - rewrite containsChar_append, Hr, (IH Hs). reflexivity.
  - cbn [containsChar]. rewrite Hx, (IH Hs). reflexivity.
Qed.

Lemma replaceAll_absent (c : ascii) (r s : string) :
  containsChar c s = false -> replaceAll c r s = s.
Proof.
  induction s as [| x s IH]; intro Hs; [reflexivity |].
  cbn [containsChar] in Hs. apply orb_false_elim in Hs. destruct Hs as [Hx Hs].
  cbn [replaceAll]. rewrite Hx, (IH Hs). reflexivity.
Qed.

Lemma sanitizeHtml_clean (input : string) :
  containsChar "<" (sanitizeHtml input) = false
  /\ containsChar ">" (sanitizeHtml input) = false
  /\ containsChar doubleQuote (sanitizeHtml input) = false
  /\ containsChar "'" (sanitizeHtml input) = false
  /\ containsChar "/" (sanitizeHtml input) = false.
Proof.
  unfold sanitizeHtml.
  destruct (String.eqb input ""); [repeat split; reflexivity |].
  repeat split;
    repeat first [ apply replaceAll_removes; reflexivity
                 | apply replaceAll_keeps_out; [reflexivity |] ].
Qed.

(** X22.  What [sanitizeHtml] returns holds none of the characters
    [<], [>], the double quote, the single quote and [/]; the ampersand is
    not escaped, so sanitizing twice is sanitizing once. *)
Theorem sanitizeHtml_idempotent (input : string) :
  (forall c, In c ["<"; ">"; doubleQuote; "'"; "/"]%char ->
             containsChar c (sanitizeHtml input) = false)
  /\ sanitizeHtml (sanitizeHtml input) = sanitizeHtml input.
Proof.
  destruct (sanitizeHtml_clean input) as [Hlt [Hgt [Hdq [Hsq Hsl]]]].
  split.
  - intros c [<- | [<- | [<- | [<- | [<- | []]]]]]; assumption.
  - unfold sanitizeHtml at 1.
    destruct (String.eqb (sanitizeHtml input) "") eqn:E.
    + apply String.eqb_eq in E. symmetry. exact E.
    + rewrite (replaceAll_absent "<") by exact Hlt.
      rewrite (replaceAll_absent ">") by exact Hgt.
      rewrite (replaceAll_absent doubleQuote) by exact Hdq.
      rewrite (replaceAll_absent "'") by exact Hsq.
      apply replaceAll_absent. exact Hsl.
Qed.

(** X23.  The form validators accept the title and the description of
    every issue that the schema accepts, and more: a title of 201 to 500
    characters passes the form and fails the schema, whose limit is 200. *)
Theorem form_accepts_more_than_schema (i : Issue) :
  (validateIssue i = true ->
   isValid (validateIssueTitle (title i)) = true
   /\ isValid (validateIssueDescription (description i)) = true)
  /\ ((200 < String.length (title i) <= 500)%nat ->
      isValid (validateIssueTitle (title i)) = true
      /\ validateIssue i = false).
Proof.
  split.
  - intro Hv. unfold validateIssue, fieldsValid in Hv. split_andb Hv.
    repeat match goal with
           | H : Nat.leb _ _ = true |- _ => apply Nat.leb_le in H
           end.
    unfold validateIssueTitle, validateIssueDescription.
    split.
    + destruct (String.eqb (title i) "") eqn:E.
      * apply String.eqb_eq in E. rewrite E in *. cbn [String.length] in *. lia.
      * replace (Nat.ltb (String.length (title i)) 10) with false
          by (symmetry; apply Nat.ltb_ge; lia).
        replace (Nat.ltb 500 (String.length (title i))) with false
          by (symmetry; apply Nat.ltb_ge; lia).
        reflexivity.
    + destruct (String.eqb (description i) "") eqn:E.
      * apply String.eqb_eq in E. rewrite E in *. cbn [String.length] in *. lia.
      * replace (Nat.ltb (String.length (description i)) 20) with false
          by (symmetry; apply Nat.ltb_ge; lia).
        replace (Nat.ltb 2000 (String.length (description i))) with false
          by (symmetry; apply Nat.ltb_ge; lia).
        reflexivity.
  - intros [Hlo Hhi]. split.
    + unfold validateIssueTitle.
      destruct (String.eqb (title i) "") eqn:E.
      * apply String.eqb_eq in E. rewrite E in Hlo. cbn [String.length] in Hlo.
        lia.
      * replace (Nat.ltb (String.length (title i)) 10) with false
          by (symmetry; apply Nat.ltb_ge; lia).
        replace (Nat.ltb 500 (String.length (title i))) with false
          by (symmetry; apply Nat.ltb_ge; lia).
        reflexivity.
    + unfold validateIssue, fieldsValid.
      replace (Nat.leb (String.length (title i)) 200) with false
        by (symmetry; apply Nat.leb_gt; lia).
      rewrite andb_false_r. reflexivity.
Qed.

(** ** The page numbers *)

Lemma loopRange_In (lo hi n : Z) :
  In n (loopRange lo hi) <-> (lo <= n <= hi)%Z.
Proof.
  unfold loopRange. rewrite in_map_iff. split.
  - intros [k [<- Hk]]. apply in_seq in Hk. lia.
  - intro H. exists (Z.to_nat (n - lo)). split; [lia |].
    apply in_seq. lia.
Qed.

Lemma loopRange_sorted (lo hi : Z) : StronglySorted Z.lt (loopRange lo hi).
Proof.
  unfold loopRange. generalize (Z.to_nat (hi - lo + 1)). intro len.
  generalize 0%nat. induction len as [| len IH]; intro start;
    cbn [seq map]; constructor.
  - apply IH.
  - apply Forall_forall. intros n Hn. apply in_map_iff in Hn.
    destruct Hn as [k [<- Hk]]. apply in_seq in Hk. lia.
Qed.

Lemma pageNumbers_app (a b : list PageItem) :
  pageNumbers (a ++ b) = (pageNumbers a ++ pageNumbers b)%list.
Proof.
  induction a as [| [n |] a IH]; cbn [app pageNumbers]; [reflexivity | |];
    rewrite IH; reflexivity.
Qed.

Lemma pageNumbers_map (l : list Z) : pageNumbers (map PageNumber l) = l.
Proof.
  induction l as [| n l IH]; [reflexivity |].
  cbn [map pageNumbers]. rewrite IH. reflexivity.
Qed.

Lemma getVisiblePages_numbers (currentPage totalPages : Z) :
  (1 < totalPages)%Z ->
  pageNumbers (getVisiblePages currentPage totalPages)
  = (1%Z :: loopRange (Z.max 2 (currentPage - 2))
                      (Z.min (totalPages - 1) (currentPage + 2))
       ++ [totalPages])%list.
Proof.
  intro Ht. unfold getVisiblePages. cbv zeta.
  replace (Z.ltb 1 totalPages) with true by (symmetry; apply Z.ltb_lt; lia).
  destruct (Z.ltb 2 (currentPage - 2)), (Z.ltb (currentPage + 2) (totalPages - 1));
    rewrite !pageNumbers_app, pageNumbers_map; reflexivity.
Qed.

Lemma StronglySorted_between (lo hi : Z) (l : list Z) :
  StronglySorted Z.lt l ->
  (forall n, In n l -> (lo < n < hi)%Z) ->
  (lo < hi)%Z ->
  StronglySorted Z.lt (lo :: l ++ [hi]).
Proof.
  intros Hs Hin Hlt. constructor.
  - induction Hs as [| x l Hl IH Hx]; cbn [app].
    + constructor; [constructor | constructor].
    + constructor.
      * apply IH. intros n Hn. apply Hin. right. exact Hn.
      * apply Forall_app. split; [exact Hx |].
        constructor; [| constructor]. apply (Hin x). left. reflexivity.
  - apply Forall_app. split.
    + apply Forall_forall. intros n Hn. apply (Hin n Hn).
    + constructor; [exact Hlt | constructor].
Qed.

(** X24.  For a current page among more than one page, the numbers that
    the pagination shows are increasing, from 1 to the last page, and are
    the first page, the last page and the pages at most 2 from the current
    one; the current page is among them. *)
Theorem getVisiblePages_shows (currentPage totalPages : Z) :
  (1 < totalPages)%Z ->
  (1 <= currentPage <= totalPages)%Z ->
  let numbers := pageNumbers (getVisiblePages currentPage totalPages) in
  StronglySorted Z.lt numbers
  /\ hd_error numbers = Some 1%Z
  /\ last numbers 0%Z = totalPages
  /\ In currentPage numbers
  /\ forall n, In n numbers
               <-> (n = 1 \/ n = totalPages
                    \/ (1 <= n <= totalPages
                        /\ currentPage - 2 <= n <= currentPage + 2))%Z.
Proof.
  intros Ht Hc numbers. subst numbers.
  rewrite (getVisiblePages_numbers currentPage totalPages Ht).
  set (range := loopRange (Z.max 2 (currentPage - 2))
                          (Z.min (totalPages - 1) (currentPage + 2))).
  assert (Hin : forall n, In n (1%Z :: range ++ [totalPages])
                          <-> (n = 1 \/ n = totalPages
                               \/ (1 <= n <= totalPages
                                   /\ currentPage - 2 <= n <= currentPage + 2))%Z).
  { intro n. cbn [In]. rewrite in_app_iff. subst range.
    rewrite loopRange_In. cbn [In]. lia. }
  split; [| split; [| split; [| split]]].
  - apply StronglySorted_between; [apply loopRange_sorted | | exact Ht].
    intros n Hn. subst range. apply loopRange_In in Hn. lia.
  - reflexivity.
  - change (1%Z :: range ++ [totalPages])%list
      with ((1%Z :: range) ++ [totalPages])%list.
    apply last_last.
  - apply Hin. lia.
  - exact Hin.
Qed.

Lemma getVisiblePages_shows_witness :
  In 5%Z (pageNumbers (getVisiblePages 5 20)).
Proof.
  refine (proj1 (proj2 (proj2 (proj2
            (getVisiblePages_shows 5 20 _ _))))); lia.
Defined.
